(** * pubmed_fetcher: a shallow embedding of [core.py] and [cli.py]

    The pipeline is search -> fetch -> parse -> sink.  Python values are
    modelled as they are used by the code:

    - [str] as the [string] of its UTF-8 bytes; substring tests, splits and
      joins are then those of Python on every text, while the case mapping
      and the whitespace class are the ASCII ones: [Str.lower] and
      [Str.strip] are [str.lower()] and [str.strip()] on ASCII text
      ([Str.is_ascii]), and a theorem about the value they compute is
      stated for such text;
    - an [xml.etree.ElementTree.Element] as a rose tree with a tag, an
      optional text and its children;
    - a raised exception as the [Raise] outcome of a [result];
    - the network, standard output and the file system as an explicit
      [world] threaded through a small state-and-exception monad. *)

From Stdlib Require Import String Ascii List Bool Arith ZArith QArith Lia.
Import ListNotations.
Close Scope Q_scope.
Open Scope string_scope.
Open Scope list_scope.

Set Warnings "-register-all".

(** ** Python exceptions and outcomes *)

Inductive exn : Type :=
| RequestException (msg : string)
    (* requests.exceptions.RequestException and all of its subclasses:
       ConnectionError, HTTPError, Timeout, InvalidURL, ... *)
| AttributeError
| IndexError
| TypeError
| KeyError (key : string)
| OtherError (name : string).
    (* anything else a library may raise: ET.ParseError, ValueError, ... *)

Definition is_request_exception (e : exn) : bool :=
  match e with RequestException _ => true | _ => false end.

(** [str(e)], as interpolated by the f-strings of the handlers. *)
Definition exn_str (e : exn) : string :=
  match e with
  | RequestException msg => msg
  | KeyError k => k
  | OtherError n => n
  | _ => EmptyString
  end.

Inductive result (A : Type) : Type :=
| Ok (a : A)
| Raise (e : exn).
Arguments Ok {A} a.
Arguments Raise {A} e.

Module Res.
Definition bind {A B} (r : result A) (k : A -> result B) : result B :=
  match r with Ok a => k a | Raise e => Raise e end.

(** A [for] loop with an accumulator: stops at the first exception. *)
Fixpoint foldM {A S} (f : S -> A -> result S) (s : S) (l : list A)
  : result S :=
  match l with
  | [] => Ok s
  | x :: l' => bind (f s x) (fun s' => foldM f s' l')
  end.
End Res.

Notation "x <-r c1 ;; c2" := (Res.bind c1 (fun x => c2))
  (at level 61, c1 at next level, right associativity).

(** ** Strings *)

Module Str.

Definition is_upper (c : ascii) : bool :=
  let n := nat_of_ascii c in ((65 <=? n) && (n <=? 90))%nat.

Definition lower_char (c : ascii) : ascii :=
  if is_upper c then ascii_of_nat (nat_of_ascii c + 32) else c.

(** [s.lower()] on ASCII text: the letters A to Z are mapped, every other
    byte is kept.  The bytes of a character outside ASCII are all above
    127, so they never turn into, or hide, an ASCII letter. *)
Fixpoint lower (s : string) : string :=
  match s with
  | EmptyString => EmptyString
  | String c s' => String (lower_char c) (lower s')
  end.

(** [k in s] for two strings *)
Fixpoint contains (k s : string) : bool :=
  String.prefix k s ||
  match s with
  | EmptyString => false
  | String _ s' => contains k s'
  end.

(** [s.split(sep)] for a non-empty separator: the pieces between the
    non-overlapping occurrences of [sep], found from the left.  [skip]
    counts the characters of a matched separator still to be dropped. *)
Fixpoint split_from (sep : string) (skip : nat) (s : string) : list string :=
  match s with
  | EmptyString => [EmptyString]
  | String c s' =>
      match skip with
      | S k => split_from sep k s'
      | O =>
          if String.prefix sep s
          then EmptyString :: split_from sep (String.length sep - 1) s'
          else match split_from sep 0 s' with
               | p :: ps => String c p :: ps
               | [] => [String c EmptyString]
               end
      end
  end.

Definition split (sep s : string) : list string := split_from sep 0 s.

(** Python's [str.isspace] on the ASCII range: TAB, LF, VT, FF, CR,
    FS, GS, RS, US and the space.  The whitespace characters outside ASCII
    (U+0085, U+00A0, ...) are not in this class. *)
Definition is_space (c : ascii) : bool :=
  let n := nat_of_ascii c in
  (((9 <=? n) && (n <=? 13)) || ((28 <=? n) && (n <=? 32)))%nat.

Fixpoint lstrip (s : string) : string :=
  match s with
  | EmptyString => EmptyString
  | String c s' => if is_space c then lstrip s' else s
  end.

Fixpoint rstrip (s : string) : string :=
  match s with
  | EmptyString => EmptyString
  | String c s' =>
      match rstrip s' with
      | EmptyString => if is_space c then EmptyString else String c EmptyString
      | r => String c r
      end
  end.

(** [s.strip()] on ASCII text *)
Definition strip (s : string) : string := rstrip (lstrip s).

(** [s.isascii()]: every byte is below 128. *)
Fixpoint is_ascii (s : string) : bool :=
  match s with
  | EmptyString => true
  | String c s' => (nat_of_ascii c <? 128)%nat && is_ascii s'
  end.

(** [sep.join(l)] for a list of strings *)
Fixpoint join (sep : string) (l : list string) : string :=
  match l with
  | [] => EmptyString
  | [x] => x
  | x :: l' => x ++ sep ++ join sep l'
  end.

(** [sep.join(l)] when items may be [None]: a [TypeError] then. *)
Fixpoint all_str (l : list (option string)) : result (list string) :=
  match l with
  | [] => Ok []
  | Some x :: l' => xs <-r all_str l' ;; Ok (x :: xs)
  | None :: _ => Raise TypeError
  end.

Definition join_opt (sep : string) (l : list (option string))
  : result string :=
  xs <-r all_str l ;; Ok (join sep xs).

End Str.

(** [l[i]] on a list: [IndexError] out of range (non-negative index). *)
Definition getitem {A} (l : list A) (i : nat) : result A :=
  match nth_error l i with
  | Some x => Ok x
  | None => Raise IndexError
  end.

(** ** ElementTree *)

Module ET.

Inductive element : Type :=
| Element (tag : string) (text : option string) (children : list element).

Definition tag (e : element) : string :=
  match e with Element t _ _ => t end.
Definition text (e : element) : option string :=
  match e with Element _ x _ => x end.
Definition children (e : element) : list element :=
  match e with Element _ _ cs => cs end.

(** [e.iter()]: the element and all its descendants, in document order. *)
Fixpoint iter (e : element) : list element :=
  match e with
  | Element _ _ cs => e :: flat_map iter cs
  end.

(** the descendants proper: what the path step [.//] ranges over *)
Definition descendants (e : element) : list element :=
  flat_map iter (children e).

Definition has_tag (t : string) (e : element) : bool :=
  String.eqb (tag e) t.

(** [e.findall(".//t")] *)
Definition findall_desc (t : string) (e : element) : list element :=
  filter (has_tag t) (descendants e).

(** [e.findall("t")]: direct children *)
Definition findall_child (t : string) (e : element) : list element :=
  filter (has_tag t) (children e).

(** [e.findall(".//t1/t2")]: the [t2] children of the [t1] descendants *)
Definition findall_desc_child (t1 t2 : string) (e : element)
  : list element :=
  flat_map (findall_child t2) (findall_desc t1 e).

(** [e.find(path)] is the first element of [e.findall(path)], or [None]. *)
Definition find_desc (t : string) (e : element) : option element :=
  hd_error (findall_desc t e).
Definition find_child (t : string) (e : element) : option element :=
  hd_error (findall_child t e).
Definition find_desc_child (t1 t2 : string) (e : element)
  : option element :=
  hd_error (findall_desc_child t1 t2 e).

End ET.
Import ET.

(** [x.text] where [x] may be [None]: [AttributeError] on [None]. *)
Definition text_of (x : option element) : result (option string) :=
  match x with
  | Some e => Ok (text e)
  | None => Raise AttributeError
  end.

(** ** Detail extraction: the body of the loops of [fetch_paper_details] *)

Definition keywords : list string :=
  ["pharmaceutical"; "biotech"; "company"; "corporation"].

(** [any(keyword in affiliation_text for keyword in [...])] *)
Definition keyword_match (affiliation_text : string) : bool :=
  existsb (fun keyword => Str.contains keyword affiliation_text) keywords.

(** ["corresponding" in affiliation_text and "email" in affiliation_text] *)
Definition email_match (affiliation_text : string) : bool :=
  Str.contains "corresponding" affiliation_text
  && Str.contains "email" affiliation_text.

(** The three locals the author loop updates. *)
Record author_acc : Type := mkAcc {
  non_academic_authors : list (option string);
  company_affiliations : list string;
  corresponding_email : string
}.

Definition acc0 : author_acc := mkAcc [] [] "N/A".

(** One iteration of [for author in authors]. *)
Definition author_step (acc : author_acc) (author : element)
  : result author_acc :=
  match find_desc_child "AffiliationInfo" "Affiliation" author with
  | None => Ok acc
  | Some affiliation =>
      match text affiliation with
      | None => Raise AttributeError          (* None.lower() *)
      | Some aff_text =>
          let affiliation_text := Str.lower aff_text in
          let acc1 :=
            if keyword_match affiliation_text then
              let na :=
                match find_child "LastName" author with
                | Some last_name =>
                    non_academic_authors acc ++ [text last_name]
                | None => non_academic_authors acc
                end in
              mkAcc na (company_affiliations acc ++ [aff_text])
                    (corresponding_email acc)
            else acc in
          if email_match affiliation_text then
            piece <-r getitem (Str.split "email:" affiliation_text) 1 ;;
            Ok (mkAcc (non_academic_authors acc1) (company_affiliations acc1)
                      (Str.strip piece))
          else Ok acc1
      end
  end.

Definition author_loop (authors : list element) : result author_acc :=
  Res.foldM author_step acc0 authors.

(** The dictionary appended to [papers]; the values are [Optional[str]]. *)
Record paper : Type := mkPaper {
  PubmedID : option string;
  Title : option string;
  Publication_Date : option string;
  Non_academic_Authors : option string;
  Company_Affiliations : option string;
  Corresponding_Author_Email : option string
}.

(** [x.text if x is not None else "N/A"] *)
Definition text_or_na (x : option element) : option string :=
  match x with
  | Some e => text e
  | None => Some "N/A"
  end.

(** The body of [for article in root.findall(".//PubmedArticle")]. *)
Definition article_record (article : element) : result paper :=
  pubmed_id <-r text_of (find_desc "PMID" article) ;;
  let title := text_or_na (find_desc "ArticleTitle" article) in
  let pub_date := text_or_na (find_desc_child "PubDate" "Year" article) in
  let authors := findall_desc "Author" article in
  acc <-r author_loop authors ;;
  na <-r match non_academic_authors acc with
         | [] => Ok "N/A"
         | l => Str.join_opt ", " l
         end ;;
  let ca := match company_affiliations acc with
            | [] => "N/A"
            | l => Str.join ", " l
            end in
  Ok (mkPaper pubmed_id title pub_date (Some na) (Some ca)
              (Some (corresponding_email acc))).

(** The whole parsing loop, on the parsed document. *)
Fixpoint article_loop (articles : list element) (papers : list paper)
  : result (list paper) :=
  match articles with
  | [] => Ok papers
  | article :: rest =>
      p <-r article_record article ;;
      article_loop rest (papers ++ [p])
  end.

Definition extract_papers (root : element) : result (list paper) :=
  article_loop (findall_desc "PubmedArticle" root) [].

(** ** Python values decoded from JSON

    What [response.json()] returns, and therefore what [fetch_paper_ids]
    hands over to [fetch_paper_details].  A number is only ever tested for
    truth, so its decoded value is kept as a rational. *)

Module Py.

Inductive json : Type :=
| JNull
| JBool (b : bool)
| JNum (n : Q)
| JStr (s : string)
| JArr (items : list json)
| JObj (fields : list (string * json)).   (* a dict: keys are distinct *)

Fixpoint lookup (k : string) (fields : list (string * json))
  : option json :=
  match fields with
  | [] => None
  | (k', v) :: rest => if String.eqb k' k then Some v else lookup k rest
  end.

(** [v[k]] for a string key [k] *)
Definition subscript (v : json) (k : string) : result json :=
  match v with
  | JObj fields =>
      match lookup k fields with
      | Some x => Ok x
      | None => Raise (KeyError k)
      end
  | _ => Raise TypeError
  end.

(** [bool(v)], as tested by [if not v] *)
Definition truthy (v : json) : bool :=
  match v with
  | JNull => false
  | JBool b => b
  | JNum n => negb (Z.eqb (Qnum n) 0)
  | JStr s => negb (String.eqb s EmptyString)
  | JArr items => match items with [] => false | _ => true end
  | JObj fields => match fields with [] => false | _ => true end
  end.

Definition as_str (v : json) : option string :=
  match v with JStr s => Some s | _ => None end.

(** a byte 10xxxxxx, which continues the encoding of a character *)
Definition is_continuation (c : ascii) : bool :=
  let n := nat_of_ascii c in ((128 <=? n) && (n <=? 191))%nat.

Definition starts_with_continuation (s : string) : bool :=
  match s with
  | String c _ => is_continuation c
  | EmptyString => false
  end.

(** The characters of a [str], as iterating it yields them: each is the
    byte that starts an encoding with the continuation bytes after it. *)
Fixpoint chars (s : string) : list string :=
  match s with
  | EmptyString => []
  | String c s' =>
      if starts_with_continuation s' then
        match chars s' with
        | g :: gs => String c g :: gs
        | [] => [String c EmptyString]
        end
      else String c EmptyString :: chars s'
  end.

(** [sep.join(v)]: [v] is iterated (a list gives its items, a string
    its characters, a dict its keys) and every item must be a [str]. *)
Definition join (sep : string) (v : json) : result string :=
  match v with
  | JArr items => Str.join_opt sep (map as_str items)
  | JStr s => Ok (Str.join sep (chars s))
  | JObj fields => Ok (Str.join sep (map fst fields))
  | _ => Raise TypeError
  end.

(** a [List[str]] as a Python value *)
Definition str_list (l : list string) : json := JArr (map JStr l).

End Py.
Import Py.

(** ** The world: network, standard output, files *)

Inductive param : Type :=
| PStr (s : string)
| PInt (n : Z).

Record request : Type := mkRequest {
  url : string;
  params : list (string * param)
}.

Module Response.
Record response : Type := mkResponse {
  status_code : Z;
  text : string
}.
End Response.

Record world : Type := mkWorld {
  stdout : list string;                 (* the lines printed so far *)
  sent : list request;                  (* the HTTP requests sent so far *)
  files : list (string * string)        (* path and content, newest first *)
}.

Definition world0 : world := mkWorld [] [] [].

(** Computations that read and change the world and may raise. *)
Definition M (A : Type) : Type := world -> result A * world.

Module IO.
Definition ret {A} (a : A) : M A := fun w => (Ok a, w).

Definition bind {A B} (m : M A) (k : A -> M B) : M B :=
  fun w =>
    match m w with
    | (Ok a, w') => k a w'
    | (Raise e, w') => (Raise e, w')
    end.

Definition lift {A} (r : result A) : M A := fun w => (r, w).

(** [print(line)] and [typer.echo(line)] *)
Definition print (line : string) : M unit :=
  fun w => (Ok tt, mkWorld (stdout w ++ [line]) (sent w) (files w)).

(** Writing a file opened with mode ["w"]: [OSError] when the path
    cannot be opened for writing ([writable] tells), and then no file. *)
Definition write_file (writable : string -> bool) (path content : string)
  : M unit :=
  fun w =>
    if writable path
    then (Ok tt, mkWorld (stdout w) (sent w) ((path, content) :: files w))
    else (Raise (OtherError "OSError"), w).

(** [try: body except requests.exceptions.RequestException as e: handler] *)
Definition try_request {A} (body : M A) (handler : exn -> M A) : M A :=
  fun w =>
    match body w with
    | (Raise e, w') =>
        if is_request_exception e then handler e w' else (Raise e, w')
    | done => done
    end.

(** [for x in l: body x] *)
Fixpoint for_each {A} (l : list A) (body : A -> M unit) : M unit :=
  match l with
  | [] => ret tt
  | x :: l' => bind (body x) (fun _ => for_each l' body)
  end.
End IO.

Notation "x <- c1 ;; c2" := (IO.bind c1 (fun x => c2))
  (at level 61, c1 at next level, right associativity).
Notation "c1 >> c2" := (IO.bind c1 (fun _ => c2))
  (at level 61, right associativity).

Definition PUBMED_SEARCH_URL : string :=
  "https://eutils.ncbi.nlm.nih.gov/entrez/eutils/esearch.fcgi".
Definition PUBMED_FETCH_URL : string :=
  "https://eutils.ncbi.nlm.nih.gov/entrez/eutils/efetch.fcgi".

Definition search_request (query : string) (max_results : Z) : request :=
  mkRequest PUBMED_SEARCH_URL
    [("db", PStr "pubmed"); ("term", PStr query);
     ("retmax", PInt max_results); ("retmode", PStr "json")].

Definition fetch_request (ids : string) : request :=
  mkRequest PUBMED_FETCH_URL
    [("db", PStr "pubmed"); ("id", PStr ids); ("retmode", PStr "xml")].

(** The columns of [pd.DataFrame(papers)]: the keys of the dictionaries. *)
Definition columns : list string :=
  ["PubmedID"; "Title"; "Publication Date"; "Non-academic Author(s)";
   "Company Affiliation(s)"; "Corresponding Author Email"].

Definition cells (p : paper) : list (option string) :=
  [PubmedID p; Title p; Publication_Date p; Non_academic_Authors p;
   Company_Affiliations p; Corresponding_Author_Email p].

(** ** Test doubles and sample documents

    A network that answers every request in the same way, a parser that
    yields a fixed tree, and a few small documents. *)

Definition fixed_get (answer : result Response.response)
  : request -> result Response.response := fun _ => answer.

Definition fixed_parse (root : element) : string -> result element :=
  fun _ => Ok root.

Definition fixed_msg : Response.response -> string :=
  fun _ => "HTTP error".

Definition ok_response : Response.response :=
  Response.mkResponse 200 "<PubmedArticleSet/>".

Definition leaf (t x : string) : element := Element t (Some x) [].

Definition author_with (last_name aff_text : string) : element :=
  Element "Author" None
    [leaf "LastName" last_name;
     Element "AffiliationInfo" None [leaf "Affiliation" aff_text]].

Definition article_with (top : list element) (authors : list element)
  : element :=
  Element "PubmedArticle" None
    [Element "MedlineCitation" None
       (top ++ [Element "Article" None
                  [Element "AuthorList" None authors]])].

Definition document (articles : list element) : element :=
  Element "PubmedArticleSet" None articles.

Definition biotech_text : string :=
  "Biotech Corp, Corresponding, Email: jane@x.com".

Definition university_text : string :=
  "University of Leeds, Corresponding author, Email: jane@x.edu".

Definition withheld_text : string :=
  "Corresponding author, e-mail withheld, University Email Office".

Definition academic_text : string :=
  "Department of Physics, University of Leeds".

(** an article with an identifier, no title and no author *)
Definition bare_article : element :=
  article_with [leaf "PMID" "101"] [].

(** an article with an identifier and one author of a university *)
Definition university_article : element :=
  article_with [leaf "PMID" "102"; leaf "ArticleTitle" "On tides"]
    [author_with "Doe" university_text].

Definition withheld_article : element :=
  article_with [leaf "PMID" "103"] [author_with "Roe" withheld_text].

(** an article without its identifier node *)
Definition anonymous_article : element :=
  article_with [leaf "ArticleTitle" "Untitled"] [].

Definition industry_article : element :=
  article_with [leaf "PMID" "104"]
    [author_with "Poe" biotech_text;
     Element "Author" None
       [Element "AffiliationInfo" None
          [leaf "Affiliation" "Acme Pharmaceutical Company"]]].

Definition two_emails_text : string :=
  "Acme Biotech. Corresponding author. Email: a@acme.com Email: b@acme.com".

Definition shouting_text : string :=
  "Corresponding Author, EMAIL:   Jane.Doe@Uni.EDU  ".

(** an envelope with two identifiers, and an answer without envelope *)
Definition two_ids_envelope : json :=
  JObj [("esearchresult",
         JObj [("count", JStr "2"); ("idlist", JArr [JStr "101"; JStr "104"])])].

Definition error_body : json :=
  JObj [("error", JStr "API rate limit exceeded")].

(** a rendering of a record by its identifier *)
Definition show_id (p : paper) : string :=
  match PubmedID p with
  | Some i => i
  | None => "None"
  end.

(** The line feed and the double quote. *)
Definition LF : string := String (ascii_of_nat 10) EmptyString.
Definition dquote : ascii := ascii_of_nat 34.

(** A double for the field quoting of the csv writer in its minimal
    mode: a field with a comma, a double quote, a line feed or a carriage
    return is put between double quotes, its own double quotes doubled. *)
Definition is_special (c : ascii) : bool :=
  let n := nat_of_ascii c in
  ((n =? 44) || (n =? 34) || (n =? 10) || (n =? 13))%nat.

Fixpoint has_special (s : string) : bool :=
  match s with
  | EmptyString => false
  | String c s' => is_special c || has_special s'
  end.

Fixpoint double_quotes (s : string) : string :=
  match s with
  | EmptyString => EmptyString
  | String c s' =>
      if Ascii.eqb c dquote
      then String c (String c (double_quotes s'))
      else String c (double_quotes s')
  end.

Definition quote_minimal (s : string) : string :=
  if has_special s
  then String dquote (double_quotes s ++ String dquote EmptyString)
  else s.

(** a file system in which only the paths under /tmp/ can be written *)
Definition only_in_tmp (path : string) : bool := String.prefix "/tmp/" path.

(** a record with a missing title, and one with a comma in a field *)
Definition untitled_record : paper :=
  mkPaper (Some "105") None (Some "2021") (Some "N/A") (Some "N/A")
          (Some "N/A").

Definition industry_record : paper :=
  mkPaper (Some "104") (Some "N/A") (Some "N/A") (Some "Poe")
          (Some "Biotech Corp, Acme Pharmaceutical Company")
          (Some "jane@x.com").

(** the envelope of a search that matched nothing *)
Definition empty_envelope : json :=
  JObj [("esearchresult", JObj [("count", JStr "0"); ("idlist", JArr [])])].

Definition not_found : Response.response :=
  Response.mkResponse 404 "Not Found".

Definition refused : exn := RequestException "Connection refused".

(** ** The three functions of [core.py] and the command of [cli.py] *)

Section Pipeline.

(** [requests.get(url, params=params)]: a response, or an exception. *)
Variable http_get : request -> result Response.response.

(** The message of the [HTTPError] that [raise_for_status] raises. *)
Variable http_error_msg : Response.response -> string.

(** [response.json()]: the decoded body, or the decoder's exception. *)
Variable response_json : Response.response -> result json.

(** [ET.fromstring(text)]: the root element, or [ParseError]. *)
Variable fromstring : string -> result element.

(** The csv writer behind [DataFrame.to_csv]: its quoting of one field
    and its line terminator. *)
Variable csv_quote : string -> string.
Variable linesep : string.

(** The paths that can be opened for writing. *)
Variable writable : string -> bool.

(** [str(paper)], the rendering of a dictionary by [typer.echo]. *)
Variable repr_paper : paper -> string.

Definition requests_get (req : request) : M Response.response :=
  fun w => (http_get req, mkWorld (stdout w) (sent w ++ [req]) (files w)).

(** [response.raise_for_status()]: an [HTTPError] for a 4xx or 5xx status. *)
Definition raise_for_status (r : Response.response) : result unit :=
  if ((400 <=? Response.status_code r) && (Response.status_code r <? 600))%Z
  then Raise (RequestException (http_error_msg r))
  else Ok tt.

Definition fetch_paper_ids (query : string) (max_results : Z) : M json :=
  IO.try_request
    (response <- requests_get (search_request query max_results) ;;
     IO.lift (raise_for_status response) >>
     body <- IO.lift (response_json response) ;;
     esearchresult <- IO.lift (subscript body "esearchresult") ;;
     IO.lift (subscript esearchresult "idlist"))
    (fun e =>
       IO.print ("Error fetching paper IDs: " ++ exn_str e) >>
       IO.ret (JArr [])).

(** Lines 33 to 41: the request and the parse of its answer. *)
Definition fetch_document (paper_ids : json) : M element :=
  ids <- IO.lift (Py.join "," paper_ids) ;;
  response <- requests_get (fetch_request ids) ;;
  IO.lift (raise_for_status response) >>
  IO.lift (fromstring (Response.text response)).

Definition fetch_paper_details (paper_ids : json) : M (list paper) :=
  if negb (truthy paper_ids) then
    IO.print "No paper IDs provided." >> IO.ret []
  else
    IO.try_request
      (root <- fetch_document paper_ids ;;
       IO.lift (extract_papers root))
      (fun e =>
         IO.print ("Error fetching paper details: " ++ exn_str e) >>
         IO.ret []).

(** [pd.DataFrame(papers)] with its header: a missing value is written
    as the empty field. *)
Definition csv_cell (c : option string) : string :=
  match c with
  | Some s => s
  | None => EmptyString
  end.

Definition table (papers : list paper) : list (list string) :=
  columns :: map (fun p => map csv_cell (cells p)) papers.

Definition csv_row (fields : list string) : string :=
  Str.join "," (map csv_quote fields) ++ linesep.

(** [df.to_csv(filename, index=False)]: the text written *)
Definition to_csv (rows : list (list string)) : string :=
  String.concat EmptyString (map csv_row rows).

Definition save_to_csv (papers : list paper) (filename : string) : M unit :=
  match papers with
  | _ :: _ =>
      IO.write_file writable filename (to_csv (table papers)) >>
      IO.print ("Results saved to " ++ filename)
  | [] => IO.print "No papers to save."
  end.

Definition str_of_file (file : option string) : string :=
  match file with
  | Some f => f
  | None => "None"
  end.

(** Lines 19 and 20 of [cli.py]: the two stages, in sequence. *)
Definition fetch_papers (query : string) : M (list paper) :=
  paper_ids <- fetch_paper_ids query 10 ;;
  fetch_paper_details paper_ids.

Definition get_papers_list (query : string) (file : option string)
  (debug : bool) : M unit :=
  (if debug then
     IO.print "Debug mode enabled" >>
     IO.print ("Query: " ++ query) >>
     IO.print ("File: " ++ str_of_file file) >>
     IO.print "Debug: True"
   else IO.ret tt) >>
  IO.print ("Fetching papers for query: " ++ query) >>
  papers <- fetch_papers query ;;
  match file with
  | Some (String c f) => save_to_csv papers (String c f)
  | _ => IO.for_each papers (fun paper => IO.print (repr_paper paper))
  end.

(** A request fails with a network error, or with an error status. *)
Inductive request_fails (req : request) : exn -> Prop :=
| network_failure e :
    http_get req = Raise e ->
    is_request_exception e = true ->
    request_fails req e
| status_failure r :
    http_get req = Ok r ->
    (400 <= Response.status_code r < 600)%Z ->
    request_fails req (RequestException (http_error_msg r)).

(** An author whose affiliation passes the test of line 64. *)
Definition sets_email (author : element) : bool :=
  match find_desc_child "AffiliationInfo" "Affiliation" author with
  | Some affiliation =>
      match ET.text affiliation with
      | Some t => email_match (Str.lower t)
      | None => false
      end
  | None => false
  end.

Definition no_author_sets_email (article : element) : bool :=
  forallb (fun a => negb (sets_email a)) (findall_desc "Author" article).

(** ** Conditions on the input under which the loops complete *)

(** The step of the author loop completes on [author]: there is no
    affiliation node, or it has a text which, when it passes the email
    test, holds the separator of the split. *)
Definition author_ok (author : element) : bool :=
  match find_desc_child "AffiliationInfo" "Affiliation" author with
  | None => true
  | Some affiliation =>
      match ET.text affiliation with
      | None => false
      | Some t =>
          negb (email_match (Str.lower t))
          || Str.contains "email:" (Str.lower t)
      end
  end.

(** What one author adds to [company_affiliations] ... *)
Definition company_of (author : element) : list string :=
  match find_desc_child "AffiliationInfo" "Affiliation" author with
  | Some affiliation =>
      match ET.text affiliation with
      | Some t => if keyword_match (Str.lower t) then [t] else []
      | None => []
      end
  | None => []
  end.

(** ... and to [non_academic_authors]. *)
Definition name_of (author : element) : list (option string) :=
  match company_of author, find_child "LastName" author with
  | _ :: _, Some last_name => [ET.text last_name]
  | _, _ => []
  end.

(** An author whose affiliation text is ASCII if it passes the email
    test: the text the corresponding email is then cut from. *)
Definition email_text_ascii (author : element) : bool :=
  match find_desc_child "AffiliationInfo" "Affiliation" author with
  | Some affiliation =>
      match ET.text affiliation with
      | Some t => negb (email_match (Str.lower t)) || Str.is_ascii t
      | None => true
      end
  | None => true
  end.

Definition is_some {A} (o : option A) : bool :=
  match o with Some _ => true | None => false end.

(** The body of the article loop completes on [article]. *)
Definition article_ok (article : element) : bool :=
  is_some (find_desc "PMID" article)
  && forallb author_ok (findall_desc "Author" article)
  && forallb is_some (flat_map name_of (findall_desc "Author" article)).

(** The lines echoed before the search, and the lines of the sink. *)
Definition prelude_lines (query : string) (file : option string)
  (debug : bool) : list string :=
  (if debug
   then ["Debug mode enabled"; ("Query: " ++ query)%string;
         ("File: " ++ str_of_file file)%string; "Debug: True"]
   else [])
  ++ [("Fetching papers for query: " ++ query)%string].

(** [if file:] *)
Definition has_destination (file : option string) : bool :=
  match file with
  | Some (String _ _) => true
  | _ => false
  end.

(** A computation that leaves the files as they are. *)
Definition keeps_files {A} (m : M A) : Prop :=
  forall w, files (snd (m w)) = files w.

(** A computation that sends at most [n] requests. *)
Definition sends_at_most {A} (n : nat) (m : M A) : Prop :=
  forall w, exists reqs,
    sent (snd (m w)) = sent w ++ reqs /\ length reqs <= n.

(** * Properties *)

(** ** Strings *)

Lemma split_without_sep (sep s : string) :
  Str.contains sep s = false -> Str.split sep s = [s].
Proof.
  unfold Str.split.
  induction s as [|c s IH]; intros H.
  - reflexivity.
  - cbn [Str.contains] in H. apply orb_false_iff in H as [Hp Hc].
    cbn [Str.split_from]. rewrite Hp, (IH Hc). reflexivity.
Qed.

(** ** The author loop *)

Lemma author_step_affiliated acc author affiliation t :
  find_desc_child "AffiliationInfo" "Affiliation" author = Some affiliation ->
  ET.text affiliation = Some t ->
  author_step acc author =
    let affiliation_text := Str.lower t in
    let acc1 :=
      if keyword_match affiliation_text then
        mkAcc (match find_child "LastName" author with
               | Some last_name => non_academic_authors acc ++ [ET.text last_name]
               | None => non_academic_authors acc
               end)
              (company_affiliations acc ++ [t]) (corresponding_email acc)
      else acc in
    if email_match affiliation_text then
      piece <-r getitem (Str.split "email:" affiliation_text) 1 ;;
      Ok (mkAcc (non_academic_authors acc1) (company_affiliations acc1)
                (Str.strip piece))
    else Ok acc1.
Proof.
  intros Ha Ht. unfold author_step. rewrite Ha, Ht. reflexivity.
Qed.

Lemma author_step_raises acc author e :
  author_step acc author = Raise e -> e = AttributeError \/ e = IndexError.
Proof.
  unfold author_step. intros H.
  destruct (find_desc_child _ _ author) as [aff|]; [|discriminate].
  destruct (ET.text aff) as [t|]; [|injection H as <-; auto].
  destruct (email_match _); [|discriminate].
  unfold getitem in H.
  destruct (nth_error _ 1); cbn in H; [discriminate|].
  injection H as <-; auto.
Qed.

Lemma author_step_lengths acc author acc' :
  author_step acc author = Ok acc' ->
  length (non_academic_authors acc) <= length (company_affiliations acc) ->
  length (non_academic_authors acc') <= length (company_affiliations acc').
Proof.
  unfold author_step. intros H Hlen.
  destruct (find_desc_child _ _ author) as [aff|];
    [|injection H as <-; exact Hlen].
  destruct (ET.text aff) as [t|]; [|discriminate].
  assert (Hacc1 : forall acc1,
    acc1 = (if keyword_match (Str.lower t)
            then mkAcc (match find_child "LastName" author with
                        | Some last_name =>
                            non_academic_authors acc ++ [ET.text last_name]
                        | None => non_academic_authors acc
                        end)
                       (company_affiliations acc ++ [t])
                       (corresponding_email acc)
            else acc) ->
    length (non_academic_authors acc1) <= length (company_affiliations acc1)).
  { intros acc1 ->. destruct (keyword_match _); [|exact Hlen].
    destruct (find_child _ author); cbn; rewrite ?length_app; cbn; lia. }
  specialize (Hacc1 _ eq_refl).
  destruct (email_match _).
  - destruct (getitem _ 1); cbn in H; [|discriminate].
    injection H as <-. exact Hacc1.
  - injection H as <-. exact Hacc1.
Qed.

Lemma author_loop_from_lengths authors : forall acc acc',
  Res.foldM author_step acc authors = Ok acc' ->
  length (non_academic_authors acc) <= length (company_affiliations acc) ->
  length (non_academic_authors acc') <= length (company_affiliations acc').
Proof.
  induction authors as [|a authors IH]; cbn; intros acc acc' H Hlen.
  - injection H as <-. exact Hlen.
  - destruct (author_step acc a) as [acc1|e] eqn:E; cbn in H; [|discriminate].
    eapply IH; [exact H|]. eapply author_step_lengths; eauto.
Qed.

Lemma author_loop_raises authors : forall acc e,
  Res.foldM author_step acc authors = Raise e ->
  e = AttributeError \/ e = IndexError.
Proof.
  induction authors as [|a authors IH]; cbn; intros acc e H.
  - discriminate.
  - destruct (author_step acc a) as [acc1|e1] eqn:E; cbn in H.
    + eapply IH; eauto.
    + injection H as <-. eapply author_step_raises; eauto.
Qed.

Lemma author_step_keeps_email acc author acc' :
  sets_email author = false ->
  author_step acc author = Ok acc' ->
  corresponding_email acc' = corresponding_email acc.
Proof.
  unfold sets_email, author_step. intros Hs H.
  destruct (find_desc_child _ _ author) as [aff|]; [|injection H as <-; reflexivity].
  destruct (ET.text aff) as [t|]; [|discriminate].
  rewrite Hs in H. injection H as <-.
  destruct (keyword_match _); reflexivity.
Qed.

Lemma author_loop_keeps_email authors : forall acc acc',
  forallb (fun a => negb (sets_email a)) authors = true ->
  Res.foldM author_step acc authors = Ok acc' ->
  corresponding_email acc' = corresponding_email acc.
Proof.
  induction authors as [|a authors IH]; cbn; intros acc acc' Hall H.
  - injection H as <-. reflexivity.
  - apply andb_true_iff in Hall as [Ha Hall].
    apply negb_true_iff in Ha.
    destruct (author_step acc a) as [acc1|e] eqn:E; cbn in H; [|discriminate].
    rewrite (IH _ _ Hall H). eapply author_step_keeps_email; eauto.
Qed.

Lemma author_step_split_fails acc author affiliation t :
  find_desc_child "AffiliationInfo" "Affiliation" author = Some affiliation ->
  ET.text affiliation = Some t ->
  email_match (Str.lower t) = true ->
  Str.contains "email:" (Str.lower t) = false ->
  author_step acc author = Raise IndexError.
Proof.
  intros Ha Ht Hm Hc.
  rewrite (author_step_affiliated acc _ _ _ Ha Ht). cbv zeta.
  rewrite Hm, (split_without_sep _ _ Hc). reflexivity.
Qed.

(** ** One article *)

Lemma article_record_inv article p :
  article_record article = Ok p ->
  exists pubmed_id acc na,
    text_of (find_desc "PMID" article) = Ok pubmed_id /\
    author_loop (findall_desc "Author" article) = Ok acc /\
    p = mkPaper pubmed_id
          (text_or_na (find_desc "ArticleTitle" article))
          (text_or_na (find_desc_child "PubDate" "Year" article))
          (Some na)
          (Some (match company_affiliations acc with
                 | [] => "N/A"
                 | l => Str.join ", " l
                 end))
          (Some (corresponding_email acc)).
Proof.
  unfold article_record. intros H.
  destruct (text_of _) as [pid|]; cbn in H; [|discriminate].
  destruct (author_loop _) as [acc|]; cbn in H; [|discriminate].
  destruct (match non_academic_authors acc with [] => _ | _ => _ end)
    as [na|]; cbn in H; [|discriminate].
  injection H as <-. exists pid, acc, na. auto.
Qed.

Lemma article_record_raises article e :
  article_record article = Raise e -> is_request_exception e = false.
Proof.
  unfold article_record. intros H.
  destruct (find_desc "PMID" article); cbn in H;
    [|injection H as <-; reflexivity].
  destruct (author_loop _) as [acc|e1] eqn:E; cbn in H.
  - destruct (non_academic_authors acc) as [|x l]; cbn in H; [discriminate|].
    unfold Str.join_opt in H.
    assert (Hall : forall l0 e0, Str.all_str l0 = Raise e0 -> e0 = TypeError).
    { clear. induction l0 as [|[y|] l0 IH]; cbn; intros e0 H0.
      - discriminate.
      - destruct (Str.all_str l0); cbn in H0; [discriminate|]. now apply IH.
      - now injection H0 as <-. }
    destruct (Str.all_str (x :: l)) eqn:E1; cbn in H; [discriminate|].
    injection H as <-. now rewrite (Hall _ _ E1).
  - injection H as <-.
    destruct (author_loop_raises _ _ _ E) as [-> | ->]; reflexivity.
Qed.

Lemma article_record_no_pmid article :
  find_desc "PMID" article = None ->
  article_record article = Raise AttributeError.
Proof. unfold article_record. now intros ->. Qed.

(** ** The article loop *)

Lemma article_loop_inv articles : forall done papers,
  article_loop articles done = Ok papers ->
  exists new,
    papers = done ++ new /\
    Forall2 (fun article p => article_record article = Ok p) articles new.
Proof.
  induction articles as [|a articles IH]; cbn; intros done papers H.
  - injection H as <-. exists []. now rewrite app_nil_r.
  - destruct (article_record a) as [p|e] eqn:E; cbn in H; [|discriminate].
    destruct (IH _ _ H) as (new & -> & Hnew).
    exists (p :: new). rewrite <- app_assoc. auto.
Qed.

Lemma article_loop_raises articles : forall done article e0,
  In article articles ->
  article_record article = Raise e0 ->
  exists e, article_loop articles done = Raise e /\
            is_request_exception e = false.
Proof.
  induction articles as [|a articles IH]; cbn; intros done article e0 Hin Hr.
  - contradiction.
  - destruct (article_record a) as [p|e] eqn:E; cbn.
    + destruct Hin as [-> | Hin]; [congruence|]. eapply IH; eauto.
    + exists e. split; [reflexivity|]. eapply article_record_raises; eauto.
Qed.

Lemma extract_papers_inv root papers :
  extract_papers root = Ok papers ->
  Forall2 (fun article p => article_record article = Ok p)
          (findall_desc "PubmedArticle" root) papers.
Proof.
  unfold extract_papers. intros H.
  destruct (article_loop_inv _ _ _ H) as (new & -> & Hnew). exact Hnew.
Qed.

Lemma article_loop_never_request articles : forall done e,
  article_loop articles done = Raise e -> is_request_exception e = false.
Proof.
  induction articles as [|a articles IH]; cbn; intros done e H.
  - discriminate.
  - destruct (article_record a) as [p|e1] eqn:E; cbn in H.
    + eapply IH; eauto.
    + injection H as <-. eapply article_record_raises; eauto.
Qed.

(** ** The two requests *)

Lemma raise_for_status_error r :
  (400 <= Response.status_code r < 600)%Z ->
  raise_for_status r = Raise (RequestException (http_error_msg r)).
Proof.
  intros [Hlo Hhi]. unfold raise_for_status.
  apply Z.leb_le in Hlo. apply Z.ltb_lt in Hhi. now rewrite Hlo, Hhi.
Qed.

Lemma request_fails_is_request req e :
  request_fails req e -> is_request_exception e = true.
Proof. now destruct 1. Qed.

(** After a failing request the body of the [try] has raised [e], with
    the request recorded and nothing printed. *)
Lemma failing_request {A} req e (k : Response.response -> M A) w :
  request_fails req e ->
  (response <- requests_get req ;;
   IO.lift (raise_for_status response) >> k response) w
  = (Raise e, mkWorld (stdout w) (sent w ++ [req]) (files w)).
Proof.
  intros [e' Hget _ | r Hget Hst]; unfold IO.bind, requests_get, IO.lift;
    rewrite Hget; [reflexivity|].
  now rewrite (raise_for_status_error _ Hst).
Qed.

Lemma fetch_paper_details_parsed paper_ids w root w' :
  truthy paper_ids = true ->
  fetch_document paper_ids w = (Ok root, w') ->
  fetch_paper_details paper_ids w = (extract_papers root, w').
Proof.
  intros Ht Hd. unfold fetch_paper_details. rewrite Ht. cbn [negb].
  unfold IO.try_request, IO.bind at 1. rewrite Hd. unfold IO.lift.
  destruct (extract_papers root) as [papers|e] eqn:E; [reflexivity|].
  unfold extract_papers in E.
  now rewrite (article_loop_never_request _ _ _ E).
Qed.

Lemma fetch_paper_details_ok paper_ids w papers :
  fst (fetch_paper_details paper_ids w) = Ok papers ->
  papers = [] \/
  exists root w',
    fetch_document paper_ids w = (Ok root, w') /\
    Forall2 (fun article p => article_record article = Ok p)
            (findall_desc "PubmedArticle" root) papers.
Proof.
  unfold fetch_paper_details.
  destruct (truthy paper_ids) eqn:Ht; cbn [negb].
  - unfold IO.try_request, IO.bind at 1.
    destruct (fetch_document paper_ids w) as [[root|e] w'] eqn:Hd.
    + unfold IO.lift.
      destruct (extract_papers root) as [ps|e] eqn:E.
      * cbn. intros [= <-]. right. exists root, w'. split; [reflexivity|].
        now apply extract_papers_inv.
      * destruct (is_request_exception e); cbn; [|discriminate].
        intros [= <-]. now left.
    + destruct (is_request_exception e); cbn; [|discriminate].
      intros [= <-]. now left.
  - cbn. intros [= <-]. now left.
Qed.

Lemma article_record_default_email article p :
  article_record article = Ok p ->
  no_author_sets_email article = true ->
  Corresponding_Author_Email p = Some "N/A".
Proof.
  intros H Hno.
  destruct (article_record_inv _ _ H) as (pid & acc & na & _ & Hloop & ->).
  cbn. f_equal.
  exact (author_loop_keeps_email _ _ _ Hno Hloop).
Qed.

Lemma article_record_default_title article p :
  article_record article = Ok p ->
  find_desc "ArticleTitle" article = None ->
  Title p = Some "N/A".
Proof.
  intros H Hno.
  destruct (article_record_inv _ _ H) as (pid & acc & na & _ & _ & ->).
  cbn. now rewrite Hno.
Qed.

Lemma fetch_paper_ids_sent query max_results w :
  sent (snd (fetch_paper_ids query max_results w))
  = sent w ++ [search_request query max_results].
Proof.
  unfold fetch_paper_ids, IO.try_request, IO.bind, requests_get, IO.lift,
    IO.print, IO.ret.
  destruct (http_get _) as [r|e].
  - destruct (raise_for_status r) as [[]|e].
    + destruct (response_json r) as [body|e].
      * destruct (subscript body _) as [es|e].
        -- destruct (subscript es _) as [ids|e]; [reflexivity|].
           destruct (is_request_exception e); reflexivity.
        -- destruct (is_request_exception e); reflexivity.
      * destruct (is_request_exception e); reflexivity.
    + destruct (is_request_exception e); reflexivity.
  - destruct (is_request_exception e); reflexivity.
Qed.

Lemma fetch_paper_details_falsy paper_ids w :
  truthy paper_ids = false ->
  fetch_paper_details paper_ids w
  = (Ok [], mkWorld (stdout w ++ ["No paper IDs provided."])
                    (sent w) (files w)).
Proof. unfold fetch_paper_details. now intros ->. Qed.

Lemma string_app_assoc_def (x y z : string) :
  ((x ++ y) ++ z = x ++ (y ++ z))%string.
Proof. induction x as [|c x IH]; cbn; [reflexivity|now rewrite IH]. Qed.

(** ** The claims *)

(** C1 (amended): an author whose lower-cased affiliation text contains
    none of the four keywords adds nothing to the list of non-academic
    authors and nothing to the list of company affiliations; the
    corresponding email is left as it was when that text does not contain
    both "corresponding" and "email" (the email test of line 64 does not
    depend on the keyword test). *)
Theorem C1_author_without_keyword acc author affiliation t :
  find_desc_child "AffiliationInfo" "Affiliation" author = Some affiliation ->
  ET.text affiliation = Some t ->
  keyword_match (Str.lower t) = false ->
  (forall acc', author_step acc author = Ok acc' ->
     non_academic_authors acc' = non_academic_authors acc /\
     company_affiliations acc' = company_affiliations acc) /\
  (email_match (Str.lower t) = false -> author_step acc author = Ok acc).
Proof.
  intros Ha Ht Hk.
  rewrite (author_step_affiliated acc _ _ _ Ha Ht). cbv zeta. rewrite Hk.
  split.
  - intros acc'. destruct (email_match _).
    + destruct (getitem _ 1); cbn; [|discriminate]. now intros [= <-].
    + now intros [= <-].
  - now intros ->.
Qed.

(** C6: an author whose affiliation text is
    "Biotech Corp, Corresponding, Email: jane@x.com" and who has a
    [LastName] node gets the text of that node appended to the
    non-academic authors, the affiliation text in its original case
    appended to the company affiliations, and "jane@x.com" as the
    corresponding email. *)
Theorem C6_biotech_author acc author affiliation last_name :
  find_desc_child "AffiliationInfo" "Affiliation" author = Some affiliation ->
  ET.text affiliation
    = Some "Biotech Corp, Corresponding, Email: jane@x.com" ->
  find_child "LastName" author = Some last_name ->
  author_step acc author
  = Ok (mkAcc (non_academic_authors acc ++ [ET.text last_name])
              (company_affiliations acc
                 ++ ["Biotech Corp, Corresponding, Email: jane@x.com"])
              "jane@x.com").
Proof.
  intros Ha Ht Hl.
  rewrite (author_step_affiliated acc _ _ _ Ha Ht). cbv zeta. rewrite Hl.
  replace (keyword_match _) with true by (vm_compute; reflexivity).
  replace (email_match _) with true by (vm_compute; reflexivity).
  replace (getitem _ 1) with (Ok (A:=string) " jane@x.com")
    by (vm_compute; reflexivity).
  cbn [Res.bind non_academic_authors company_affiliations].
  replace (Str.strip " jane@x.com") with "jane@x.com"
    by (vm_compute; reflexivity).
  reflexivity.
Qed.

(** C10: when the author loop of an article completes, the list of
    company affiliations is at least as long as the list of non-academic
    authors: a keyword match always appends an affiliation, and an author
    only when the [LastName] node is there. *)
Theorem C10_affiliations_cover_authors authors acc :
  author_loop authors = Ok acc ->
  length (non_academic_authors acc) <= length (company_affiliations acc).
Proof.
  intros H. eapply author_loop_from_lengths; [exact H|]. cbn. lia.
Qed.

(** C2 (amended): in every record that [fetch_paper_details] returns
    for an article none of whose authors passes the email test, the
    corresponding-author email is the default of line 52, the string
    "N/A". *)
Theorem C2_default_email paper_ids w papers :
  fst (fetch_paper_details paper_ids w) = Ok papers ->
  papers = [] \/
  exists root w',
    fetch_document paper_ids w = (Ok root, w') /\
    Forall2 (fun article p =>
               article_record article = Ok p /\
               (no_author_sets_email article = true ->
                Corresponding_Author_Email p = Some "N/A"))
            (findall_desc "PubmedArticle" root) papers.
Proof.
  intros H. destruct (fetch_paper_details_ok _ _ _ H) as [-> | (root & w' & Hd & Hall)];
    [now left|right].
  exists root, w'. split; [exact Hd|].
  eapply Forall2_impl; [|exact Hall]. cbn. intros a p Hr.
  split; [exact Hr|]. now apply article_record_default_email.
Qed.

(** C3: when the search request, or the fetch request, fails with a
    network error or an error status, the function prints the error and
    returns the empty list; nothing is raised. *)
Theorem C3_request_failure_recovered :
  (forall query max_results e w,
     request_fails (search_request query max_results) e ->
     fetch_paper_ids query max_results w
     = (Ok (JArr []),
        mkWorld (stdout w ++ [("Error fetching paper IDs: " ++ exn_str e)%string])
                (sent w ++ [search_request query max_results]) (files w)))
  /\
  (forall paper_ids ids e w,
     truthy paper_ids = true ->
     Py.join "," paper_ids = Ok ids ->
     request_fails (fetch_request ids) e ->
     fetch_paper_details paper_ids w
     = (Ok [],
        mkWorld (stdout w ++ [("Error fetching paper details: " ++ exn_str e)%string])
                (sent w ++ [fetch_request ids]) (files w))).
Proof.
  split.
  - intros query max_results e w Hf.
    unfold fetch_paper_ids, IO.try_request.
    rewrite (failing_request _ _ _ w Hf).
    now rewrite (request_fails_is_request _ _ Hf).
  - intros paper_ids ids e w Ht Hj Hf.
    unfold fetch_paper_details. rewrite Ht. cbn [negb].
    unfold IO.try_request, fetch_document.
    unfold IO.bind at 1 2, IO.lift at 1. rewrite Hj.
    rewrite (failing_request _ _ _ w Hf).
    now rewrite (request_fails_is_request _ _ Hf).
Qed.

(** C4: when the document parsed from the answer of the fetch request
    holds an article without a [PMID] node, [fetch_paper_details] returns
    no list: it raises, and not a [RequestException], so the handler of
    line 77 does not recover it. *)
Theorem C4_missing_pmid_raises paper_ids w root w' article :
  truthy paper_ids = true ->
  fetch_document paper_ids w = (Ok root, w') ->
  In article (findall_desc "PubmedArticle" root) ->
  find_desc "PMID" article = None ->
  exists e,
    fetch_paper_details paper_ids w = (Raise e, w') /\
    is_request_exception e = false.
Proof.
  intros Ht Hd Hin Hno.
  rewrite (fetch_paper_details_parsed _ _ _ _ Ht Hd). unfold extract_papers.
  destruct (article_loop_raises _ [] _ _ Hin (article_record_no_pmid _ Hno))
    as (e & -> & He).
  now exists e.
Qed.

(** C5: when the search returns no identifier, [fetch_paper_details]
    prints its notice and returns the empty list without sending a
    request, and the records of the pipeline are the empty list; the only
    request sent is the search. *)
Theorem C5_zero_identifiers query w w1 :
  fetch_paper_ids query 10 w = (Ok (JArr []), w1) ->
  let w2 := mkWorld (stdout w1 ++ ["No paper IDs provided."])
                    (sent w1) (files w1) in
  fetch_paper_details (JArr []) w1 = (Ok [], w2) /\
  fetch_papers query w = (Ok [], w2) /\
  sent w2 = sent w ++ [search_request query 10].
Proof.
  intros H w2.
  assert (Hd : fetch_paper_details (JArr []) w1 = (Ok [], w2))
    by (apply fetch_paper_details_falsy; reflexivity).
  split; [exact Hd|]. split.
  - unfold fetch_papers, IO.bind. now rewrite H.
  - pose proof (fetch_paper_ids_sent query 10 w) as Hs.
    rewrite H in Hs. exact Hs.
Qed.

(** C7: every record that [fetch_paper_details] returns for an article
    without an [ArticleTitle] node has the title "N/A". *)
Theorem C7_missing_title paper_ids w papers :
  fst (fetch_paper_details paper_ids w) = Ok papers ->
  papers = [] \/
  exists root w',
    fetch_document paper_ids w = (Ok root, w') /\
    Forall2 (fun article p =>
               article_record article = Ok p /\
               (find_desc "ArticleTitle" article = None ->
                Title p = Some "N/A"))
            (findall_desc "PubmedArticle" root) papers.
Proof.
  intros H. destruct (fetch_paper_details_ok _ _ _ H) as [-> | (root & w' & Hd & Hall)];
    [now left|right].
  exists root, w'. split; [exact Hd|].
  eapply Forall2_impl; [|exact Hall]. cbn. intros a p Hr.
  split; [exact Hr|]. now apply article_record_default_title.
Qed.

(** C8 (amended): with no record [save_to_csv] prints a notice and
    writes no file; with at least one record and a destination that can
    be opened for writing it writes the header row, with the six column
    names in their order, followed by one row for each record, in order,
    a missing value as the empty field; when the destination cannot be
    opened the [OSError] of the write is raised and no file is written. *)
Theorem C8_sink filename w :
  let field := fun o : option string =>
                 match o with Some x => x | None => EmptyString end in
  save_to_csv [] filename w
  = (Ok tt, mkWorld (stdout w ++ ["No papers to save."]) (sent w) (files w))
  /\
  (forall p papers,
     writable filename = true ->
     save_to_csv (p :: papers) filename w
     = (Ok tt,
        mkWorld (stdout w ++ [("Results saved to " ++ filename)%string])
          (sent w)
          ((filename,
            (Str.join ","
               (map csv_quote
                  ["PubmedID"; "Title"; "Publication Date";
                   "Non-academic Author(s)"; "Company Affiliation(s)";
                   "Corresponding Author Email"]) ++ linesep ++
             String.concat EmptyString
               (map (fun q =>
                       Str.join ","
                         (map csv_quote
                            [field (PubmedID q); field (Title q);
                             field (Publication_Date q);
                             field (Non_academic_Authors q);
                             field (Company_Affiliations q);
                             field (Corresponding_Author_Email q)])
                       ++ linesep)
                  (p :: papers)))%string)
           :: files w)))
  /\
  (forall p papers,
     writable filename = false ->
     save_to_csv (p :: papers) filename w = (Raise (OtherError "OSError"), w)).
Proof.
  intros field. split; [reflexivity|]. split; intros p papers Hw;
    unfold save_to_csv, IO.bind, IO.write_file, IO.print; rewrite Hw;
    [|reflexivity].
  cbn [stdout sent files]. do 3 f_equal. f_equal.
  unfold to_csv, table. cbn [map String.concat]. rewrite map_map.
  change (csv_row columns)
    with (Str.join "," (map csv_quote columns) ++ linesep)%string.
  rewrite string_app_assoc_def.
  destruct (map _ papers); reflexivity.
Qed.

(** * Further properties of the code *)

(** ** More on strings *)

Lemma split_from_nonempty sep s : forall skip,
  Str.split_from sep skip s <> [].
Proof.
  induction s as [|c s IH]; intros skip; cbn [Str.split_from];
    [discriminate|].
  destruct skip; [|apply IH].
  destruct (String.prefix sep (String c s)); [discriminate|].
  destruct (Str.split_from sep 0 s); discriminate.
Qed.

Lemma split_with_sep sep s :
  sep <> EmptyString ->
  Str.contains sep s = true ->
  exists p q rest, Str.split sep s = p :: q :: rest.
Proof.
  intros Hsep. unfold Str.split.
  induction s as [|c s IH]; cbn [Str.contains]; intros H.
  - destruct sep; [contradiction|discriminate].
  - cbn [Str.split_from].
    destruct (String.prefix sep (String c s)) eqn:Hp.
    + pose proof (split_from_nonempty sep s (String.length sep - 1)) as Hne.
      destruct (Str.split_from sep (String.length sep - 1) s) as [|q rest];
        [contradiction|].
      now exists EmptyString, q, rest.
    + cbn in H. destruct (IH H) as (p & q & rest & ->).
      now exists (String c p), q, rest.
Qed.

Lemma lower_char_idem c : Str.lower_char (Str.lower_char c) = Str.lower_char c.
Proof. destruct c as [[] [] [] [] [] [] [] []]; reflexivity. Qed.

Lemma lower_idem s : Str.lower (Str.lower s) = Str.lower s.
Proof.
  induction s as [|c s IH]; cbn; [reflexivity|].
  now rewrite lower_char_idem, IH.
Qed.

Lemma split_from_lower sep s : forall skip,
  Str.lower s = s ->
  Forall (fun p => Str.lower p = p) (Str.split_from sep skip s).
Proof.
  induction s as [|c s IH]; intros skip Hs; cbn [Str.split_from].
  - now constructor.
  - cbn in Hs. injection Hs as Hc Hs.
    destruct skip; [|now apply IH].
    destruct (String.prefix sep (String c s)).
    + constructor; [reflexivity|now apply IH].
    + specialize (IH 0 Hs).
      destruct (Str.split_from sep 0 s) as [|p ps].
      * constructor; [cbn; now rewrite Hc|constructor].
      * inversion IH as [|? ? Hp Hps]; subst.
        constructor; [cbn; now rewrite Hc, Hp|exact Hps].
Qed.

Lemma lstrip_lower s : Str.lower s = s -> Str.lower (Str.lstrip s) = Str.lstrip s.
Proof.
  induction s as [|c s IH]; cbn; intros Hs; [reflexivity|].
  injection Hs as Hc Hs.
  destruct (Str.is_space c); [now apply IH|]. cbn. now rewrite Hc, Hs.
Qed.

Lemma rstrip_lower s : Str.lower s = s -> Str.lower (Str.rstrip s) = Str.rstrip s.
Proof.
  induction s as [|c s IH]; cbn; intros Hs; [reflexivity|].
  injection Hs as Hc Hs. specialize (IH Hs).
  destruct (Str.rstrip s) as [|d r].
  - destruct (Str.is_space c); cbn; [reflexivity|now rewrite Hc].
  - cbn in *. now rewrite Hc, IH.
Qed.

Lemma strip_lower s : Str.lower s = s -> Str.lower (Str.strip s) = Str.strip s.
Proof. intros Hs. unfold Str.strip. now apply rstrip_lower, lstrip_lower. Qed.

Lemma lower_char_ascii c :
  (nat_of_ascii c <? 128)%nat = true ->
  (nat_of_ascii (Str.lower_char c) <? 128)%nat = true.
Proof. destruct c as [[] [] [] [] [] [] [] []]; cbn; auto. Qed.

Lemma lower_ascii s : Str.is_ascii s = true -> Str.is_ascii (Str.lower s) = true.
Proof.
  induction s as [|c s IH]; cbn [Str.is_ascii Str.lower]; [auto|].
  rewrite !andb_true_iff. intros [Hc Hs].
  split; [now apply lower_char_ascii|now apply IH].
Qed.

Lemma split_from_ascii sep s : forall skip,
  Str.is_ascii s = true ->
  Forall (fun p => Str.is_ascii p = true) (Str.split_from sep skip s).
Proof.
  induction s as [|c s IH]; intros skip Hs; cbn [Str.split_from].
  - now constructor.
  - cbn [Str.is_ascii] in Hs. apply andb_true_iff in Hs as [Hc Hs].
    destruct skip; [|now apply IH].
    destruct (String.prefix sep (String c s)).
    + constructor; [reflexivity|now apply IH].
    + specialize (IH 0 Hs).
      destruct (Str.split_from sep 0 s) as [|p ps].
      * constructor; [cbn [Str.is_ascii]; now rewrite Hc|constructor].
      * inversion IH as [|? ? Hp Hps]; subst.
        constructor; [cbn [Str.is_ascii]; now rewrite Hc, Hp|exact Hps].
Qed.

Lemma lstrip_ascii s :
  Str.is_ascii s = true -> Str.is_ascii (Str.lstrip s) = true.
Proof.
  induction s as [|c s IH]; cbn [Str.lstrip]; [auto|]. intros Hs.
  destruct (Str.is_space c); [|exact Hs].
  cbn [Str.is_ascii] in Hs. apply andb_true_iff in Hs as [_ Hs]. now apply IH.
Qed.

Lemma rstrip_ascii s :
  Str.is_ascii s = true -> Str.is_ascii (Str.rstrip s) = true.
Proof.
  induction s as [|c s IH]; cbn [Str.rstrip Str.is_ascii]; [auto|].
  intros Hs. apply andb_true_iff in Hs as [Hc Hs]. specialize (IH Hs).
  destruct (Str.rstrip s) as [|d r].
  - destruct (Str.is_space c); cbn [Str.is_ascii]; [reflexivity|].
    now rewrite Hc.
  - change (Str.is_ascii (String c (String d r)))
      with ((nat_of_ascii c <? 128)%nat && Str.is_ascii (String d r)).
    now rewrite Hc, IH.
Qed.

Lemma strip_ascii s : Str.is_ascii s = true -> Str.is_ascii (Str.strip s) = true.
Proof. intros Hs. unfold Str.strip. now apply rstrip_ascii, lstrip_ascii. Qed.

(** a string that does not begin with a whitespace character *)
Lemma lstrip_fixed s :
  match s with String c _ => Str.is_space c = false | EmptyString => True end ->
  Str.lstrip s = s.
Proof. destruct s as [|c s]; cbn; [reflexivity|]. now intros ->. Qed.

Lemma lstrip_head s :
  match Str.lstrip s with
  | String c _ => Str.is_space c = false
  | EmptyString => True
  end.
Proof.
  induction s as [|c s IH]; cbn; [exact I|].
  destruct (Str.is_space c) eqn:E; [exact IH|exact E].
Qed.

Lemma rstrip_head s :
  match s with String c _ => Str.is_space c = false | EmptyString => True end ->
  match Str.rstrip s with
  | String c _ => Str.is_space c = false
  | EmptyString => True
  end.
Proof.
  destruct s as [|c s]; cbn; [auto|]. intros Hc.
  destruct (Str.rstrip s); [now rewrite Hc|exact Hc].
Qed.

Lemma rstrip_idem s : Str.rstrip (Str.rstrip s) = Str.rstrip s.
Proof.
  induction s as [|c s IH]; [reflexivity|].
  change (Str.rstrip (String c s))
    with (match Str.rstrip s with
          | EmptyString =>
              if Str.is_space c then EmptyString else String c EmptyString
          | r => String c r
          end).
  destruct (Str.rstrip s) as [|d r] eqn:E.
  - destruct (Str.is_space c) eqn:Hc; cbn; [reflexivity|now rewrite Hc].
  - change (Str.rstrip (String c (String d r)))
      with (match Str.rstrip (String d r) with
            | EmptyString =>
                if Str.is_space c then EmptyString else String c EmptyString
            | r0 => String c r0
            end).
    now rewrite IH.
Qed.

Lemma strip_idem s : Str.strip (Str.strip s) = Str.strip s.
Proof.
  unfold Str.strip.
  rewrite (lstrip_fixed _ (rstrip_head _ (lstrip_head s))).
  apply rstrip_idem.
Qed.

(** ** More on the author loop *)

Lemma foldM_app {A S} (f : S -> A -> result S) l1 : forall l2 s,
  Res.foldM f s (l1 ++ l2)
  = Res.bind (Res.foldM f s l1) (fun s1 => Res.foldM f s1 l2).
Proof.
  induction l1 as [|x l1 IH]; intros l2 s; cbn; [reflexivity|].
  destruct (f s x); cbn; [apply IH|reflexivity].
Qed.

Lemma author_step_completes acc author :
  author_ok author = true <-> exists acc', author_step acc author = Ok acc'.
Proof.
  unfold author_ok, author_step, getitem.
  destruct (find_desc_child _ _ author) as [aff|]; [|split; eauto].
  destruct (ET.text aff) as [t|];
    [|split; [discriminate|intros [? ?]; discriminate]].
  destruct (email_match (Str.lower t)); cbn [negb orb]; [|split; eauto].
  destruct (Str.contains "email:" (Str.lower t)) eqn:Hc.
  - destruct (split_with_sep "email:" (Str.lower t)) as (p & q & rest & ->);
      [discriminate|exact Hc|]. cbn. split; eauto.
  - rewrite (split_without_sep _ _ Hc). cbn.
    split; [discriminate|intros [? ?]; discriminate].
Qed.

Lemma author_step_adds acc author acc' :
  author_step acc author = Ok acc' ->
  non_academic_authors acc' = non_academic_authors acc ++ name_of author /\
  company_affiliations acc' = company_affiliations acc ++ company_of author.
Proof.
  unfold author_step, name_of, company_of. intros H.
  destruct (find_desc_child _ _ author) as [aff|];
    [|injection H as <-; now rewrite !app_nil_r].
  destruct (ET.text aff) as [t|]; [|discriminate].
  assert (Hacc1 :
    forall acc1,
      acc1 = (if keyword_match (Str.lower t)
              then mkAcc (match find_child "LastName" author with
                          | Some last_name =>
                              non_academic_authors acc ++ [ET.text last_name]
                          | None => non_academic_authors acc
                          end)
                         (company_affiliations acc ++ [t])
                         (corresponding_email acc)
              else acc) ->
      non_academic_authors acc1
      = non_academic_authors acc ++
        match (if keyword_match (Str.lower t) then [t] else []),
              find_child "LastName" author with
        | _ :: _, Some last_name => [ET.text last_name]
        | _, _ => []
        end /\
      company_affiliations acc1
      = company_affiliations acc ++
        (if keyword_match (Str.lower t) then [t] else [])).
  { intros acc1 ->. destruct (keyword_match _).
    - destruct (find_child _ author); cbn; now rewrite ?app_nil_r.
    - now rewrite !app_nil_r. }
  specialize (Hacc1 _ eq_refl).
  destruct (email_match _).
  - destruct (getitem _ 1); cbn in H; [|discriminate].
    injection H as <-. exact Hacc1.
  - injection H as <-. exact Hacc1.
Qed.

Lemma author_loop_from_adds authors : forall acc acc',
  Res.foldM author_step acc authors = Ok acc' ->
  non_academic_authors acc'
  = non_academic_authors acc ++ flat_map name_of authors /\
  company_affiliations acc'
  = company_affiliations acc ++ flat_map company_of authors.
Proof.
  induction authors as [|a authors IH]; cbn; intros acc acc' H.
  - injection H as <-. now rewrite !app_nil_r.
  - destruct (author_step acc a) as [acc1|] eqn:E; cbn in H; [|discriminate].
    destruct (author_step_adds _ _ _ E) as [Hn Hc].
    destruct (IH _ _ H) as [Hn' Hc'].
    rewrite Hn', Hc', Hn, Hc, <- !app_assoc. auto.
Qed.

Lemma author_loop_from_completes authors : forall acc,
  forallb author_ok authors = true
  <-> exists acc', Res.foldM author_step acc authors = Ok acc'.
Proof.
  induction authors as [|a authors IH]; cbn; intros acc.
  - split; eauto.
  - rewrite andb_true_iff. split.
    + intros [Ha Hall].
      destruct (proj1 (author_step_completes acc a) Ha) as [acc1 ->]. cbn.
      now apply IH.
    + intros [acc' H].
      destruct (author_step acc a) as [acc1|] eqn:E; cbn in H; [|discriminate].
      split.
      * apply (author_step_completes acc a). eauto.
      * apply (IH acc1). eauto.
Qed.

Lemma author_step_sets_email acc author affiliation t acc' :
  find_desc_child "AffiliationInfo" "Affiliation" author = Some affiliation ->
  ET.text affiliation = Some t ->
  email_match (Str.lower t) = true ->
  author_step acc author = Ok acc' ->
  exists piece,
    getitem (Str.split "email:" (Str.lower t)) 1 = Ok piece /\
    corresponding_email acc' = Str.strip piece.
Proof.
  intros Ha Ht Hm.
  rewrite (author_step_affiliated acc _ _ _ Ha Ht). cbv zeta. rewrite Hm.
  destruct (getitem _ 1) as [piece|]; cbn; [|discriminate].
  intros [= <-]. now exists piece.
Qed.

Lemma getitem_Forall {A} (P : A -> Prop) l i x :
  Forall P l -> getitem l i = Ok x -> P x.
Proof.
  unfold getitem. intros Hall H.
  destruct (nth_error l i) as [y|] eqn:E; [|discriminate].
  injection H as <-. rewrite Forall_forall in Hall.
  eapply Hall, nth_error_In, E.
Qed.

Lemma author_step_email_normal acc author acc' :
  sets_email author = true ->
  email_text_ascii author = true ->
  author_step acc author = Ok acc' ->
  Str.is_ascii (corresponding_email acc') = true /\
  Str.lower (corresponding_email acc') = corresponding_email acc' /\
  Str.strip (corresponding_email acc') = corresponding_email acc'.
Proof.
  unfold sets_email, email_text_ascii. intros Hs Hascii H.
  destruct (find_desc_child _ _ author) as [aff|] eqn:Ha; [|discriminate].
  destruct (ET.text aff) as [t|] eqn:Ht; [|discriminate].
  rewrite Hs in Hascii. cbn in Hascii.
  destruct (author_step_sets_email _ _ _ _ _ Ha Ht Hs H) as (piece & Hp & ->).
  split; [|split; [|apply strip_idem]].
  - apply strip_ascii.
    apply (getitem_Forall (fun p => Str.is_ascii p = true) _ _ _
             (split_from_ascii "email:" _ 0 (lower_ascii _ Hascii)) Hp).
  - apply strip_lower.
    apply (getitem_Forall (fun p => Str.lower p = p) _ _ _
             (split_from_lower "email:" _ 0 (lower_idem t)) Hp).
Qed.

Lemma author_loop_from_email_normal authors : forall acc acc',
  Res.foldM author_step acc authors = Ok acc' ->
  forallb email_text_ascii authors = true ->
  existsb sets_email authors = true \/
  (Str.is_ascii (corresponding_email acc) = true /\
   Str.lower (corresponding_email acc) = corresponding_email acc /\
   Str.strip (corresponding_email acc) = corresponding_email acc) ->
  Str.is_ascii (corresponding_email acc') = true /\
  Str.lower (corresponding_email acc') = corresponding_email acc' /\
  Str.strip (corresponding_email acc') = corresponding_email acc'.
Proof.
  induction authors as [|a authors IH]; cbn; intros acc acc' H Hall Hor.
  - injection H as <-. destruct Hor as [Hf | Hn]; [discriminate|exact Hn].
  - apply andb_true_iff in Hall as [Ha Hall].
    destruct (author_step acc a) as [acc1|] eqn:E; cbn in H; [|discriminate].
    apply (IH _ _ H Hall).
    destruct (sets_email a) eqn:Hs.
    + right. eapply author_step_email_normal; eauto.
    + rewrite (author_step_keeps_email _ _ _ Hs E).
      destruct Hor as [Hex | Hn]; [left; exact Hex | right; exact Hn].
Qed.

Lemma not_all_negb {A} (f : A -> bool) l :
  forallb (fun a => negb (f a)) l = false -> existsb f l = true.
Proof.
  induction l as [|a l IH]; cbn; [discriminate|].
  destruct (f a); cbn; [reflexivity|exact IH].
Qed.

Lemma all_str_completes l :
  forallb is_some l = true <-> exists xs, Str.all_str l = Ok xs.
Proof.
  induction l as [|[x|] l IH]; cbn.
  - split; eauto.
  - rewrite IH. split.
    + intros [xs ->]. cbn. eauto.
    + intros [xs H]. destruct (Str.all_str l); [eauto|discriminate].
  - split; [discriminate|intros [? ?]; discriminate].
Qed.

Lemma names_join_completes l :
  forallb is_some l = true
  <-> exists na, match l with
                 | [] => Ok "N/A"
                 | x :: l' => Str.join_opt ", " (x :: l')
                 end = Ok na.
Proof.
  destruct l as [|x l]; [split; eauto|].
  rewrite all_str_completes. unfold Str.join_opt. split.
  - intros [xs ->]. cbn. eauto.
  - intros [na H]. destruct (Str.all_str (x :: l)); [eauto|discriminate].
Qed.

Lemma article_record_completes article :
  article_ok article = true <-> exists p, article_record article = Ok p.
Proof.
  unfold article_ok, article_record, author_loop.
  rewrite !andb_true_iff. split.
  - intros [[Hp Ha] Hn].
    destruct (find_desc "PMID" article) as [e|]; [|discriminate]. cbn.
    destruct (proj1 (author_loop_from_completes _ acc0) Ha) as [acc Hloop].
    rewrite Hloop. cbn.
    destruct (author_loop_from_adds _ _ _ Hloop) as [Hna _]. cbn in Hna.
    rewrite <- Hna in Hn.
    destruct (proj1 (names_join_completes _) Hn) as [na ->]. cbn. eauto.
  - intros [p H].
    destruct (find_desc "PMID" article) as [e|]; cbn in H; [|discriminate].
    destruct (Res.foldM author_step acc0 _) as [acc|] eqn:Hloop; cbn in H;
      [|discriminate].
    destruct (author_loop_from_adds _ _ _ Hloop) as [Hna _]. cbn in Hna.
    repeat split.
    + apply (author_loop_from_completes _ acc0). eauto.
    + rewrite <- Hna. apply names_join_completes.
      destruct (match non_academic_authors acc with [] => _ | _ => _ end)
        as [na|]; cbn in H; [eauto|discriminate].
Qed.

(** X1: an article yields a record exactly when it has a [PMID] node,
    every author's affiliation node (if any) has a text that contains
    "email:" whenever it passes the email test, and every [LastName] node
    of a keyword-matching author has a text.  Otherwise the body of the
    loop raises [AttributeError], [IndexError] or [TypeError]. *)
Theorem X1_article_record_returns_iff article :
  (article_ok article = true <-> exists p, article_record article = Ok p) /\
  (forall e, article_record article = Raise e ->
             e = AttributeError \/ e = IndexError \/ e = TypeError).
Proof.
  split; [exact (article_record_completes article)|].
  unfold article_record. intros e H.
  destruct (find_desc "PMID" article); cbn in H;
    [|injection H as <-; auto].
  destruct (author_loop _) as [acc|e1] eqn:E; cbn in H.
  - destruct (non_academic_authors acc) as [|x l]; cbn in H; [discriminate|].
    unfold Str.join_opt in H.
    destruct (Str.all_str (x :: l)) as [xs|e1] eqn:E1; cbn in H;
      [discriminate|]. injection H as <-.
    right. right. clear -E1. revert e1 E1. generalize (x :: l).
    induction l0 as [|[y|] l0 IH]; cbn; intros e1 E1.
    + discriminate.
    + destruct (Str.all_str l0); cbn in E1; [discriminate|]. now apply IH.
    + now injection E1.
  - injection H as <-.
    destruct (author_loop_raises _ _ _ E) as [-> | ->]; auto.
Qed.

(** X2: when the author loop completes, the company affiliations are the
    affiliation texts of the keyword-matching authors, and the
    non-academic authors the [LastName] texts of those of them that have
    the node, both in document order and with repetitions. *)
Theorem X2_author_loop_collects authors acc :
  author_loop authors = Ok acc ->
  company_affiliations acc = flat_map company_of authors /\
  non_academic_authors acc = flat_map name_of authors.
Proof.
  intros H. destruct (author_loop_from_adds _ _ _ H) as [Hn Hc]. auto.
Qed.

(** X3: the last author that passes the email test decides the
    corresponding email, whatever the authors before it set: when the
    affiliation text of that author is ASCII, the email is the stripped
    second piece of the lower-cased text split at "email:". *)
Theorem X3_last_email_wins before author after affiliation t acc :
  author_loop (before ++ author :: after) = Ok acc ->
  find_desc_child "AffiliationInfo" "Affiliation" author = Some affiliation ->
  ET.text affiliation = Some t ->
  Str.is_ascii t = true ->
  email_match (Str.lower t) = true ->
  forallb (fun a => negb (sets_email a)) after = true ->
  exists piece,
    getitem (Str.split "email:" (Str.lower t)) 1 = Ok piece /\
    corresponding_email acc = Str.strip piece.
Proof.
  unfold author_loop. intros H Ha Ht _ Hm Hafter.
  rewrite foldM_app in H.
  destruct (Res.foldM author_step acc0 before) as [acc1|]; cbn in H;
    [|discriminate].
  destruct (author_step acc1 author) as [acc2|] eqn:E; cbn in H;
    [|discriminate].
  destruct (author_step_sets_email _ _ _ _ _ Ha Ht Hm E) as (piece & Hp & He).
  exists piece. split; [exact Hp|].
  now rewrite (author_loop_keeps_email _ _ _ Hafter H).
Qed.

(** X4: in a record of an article one of whose authors passes the email
    test, and in which the affiliation texts that pass it are ASCII, the
    corresponding email is ASCII, in lower case and without whitespace at
    either end: lower-casing it or stripping it changes nothing. *)
Theorem X4_email_normal_form article p :
  article_record article = Ok p ->
  no_author_sets_email article = false ->
  forallb email_text_ascii (findall_desc "Author" article) = true ->
  exists email,
    Corresponding_Author_Email p = Some email /\
    Str.is_ascii email = true /\
    Str.lower email = email /\ Str.strip email = email.
Proof.
  intros H Hsome Hascii.
  destruct (article_record_inv _ _ H) as (pid & acc & na & _ & Hloop & ->).
  exists (corresponding_email acc). split; [reflexivity|].
  apply (author_loop_from_email_normal _ _ _ Hloop Hascii). left.
  now apply not_all_negb.
Qed.

(** ** Where the split cuts *)

Lemma string_app_assoc (x y z : string) :
  ((x ++ y) ++ z = x ++ (y ++ z))%string.
Proof. induction x as [|c x IH]; cbn; [reflexivity|now rewrite IH]. Qed.

Lemma string_app_length (x y : string) :
  String.length (x ++ y) = String.length x + String.length y.
Proof. induction x as [|c x IH]; cbn; [reflexivity|now rewrite IH]. Qed.

Lemma prefix_empty s : String.prefix EmptyString s = true.
Proof. now destruct s. Qed.

Lemma prefix_self_app sep b : String.prefix sep (sep ++ b) = true.
Proof.
  induction sep as [|c sep IH]; cbn; [apply prefix_empty|].
  destruct (ascii_dec c c) as [_|Hn]; [exact IH|now elim Hn].
Qed.

Lemma prefix_app_left sep : forall x y,
  String.length sep <= String.length x ->
  String.prefix sep (x ++ y) = String.prefix sep x.
Proof.
  induction sep as [|c sep IH]; intros x y Hlen;
    [now rewrite !prefix_empty|].
  destruct x as [|d x]; cbn in Hlen; [lia|]. cbn.
  destruct (ascii_dec c d); [|reflexivity]. apply IH. lia.
Qed.

Lemma split_from_skip sep x b :
  Str.split_from sep (String.length x) (x ++ b) = Str.split_from sep 0 b.
Proof. induction x as [|c x IH]; cbn; [now destruct b|exact IH]. Qed.

Lemma split_at_sep c sep b :
  Str.split (String c sep) (String c sep ++ b)
  = EmptyString :: Str.split (String c sep) b.
Proof.
  unfold Str.split.
  change (String c sep ++ b)%string with (String c (sep ++ b)).
  cbn [Str.split_from].
  change (String c (sep ++ b)) with (String c sep ++ b)%string.
  rewrite prefix_self_app. f_equal.
  cbn [String.length]. rewrite Nat.sub_1_r. cbn [Nat.pred].
  apply split_from_skip.
Qed.

(** The first occurrence of the separator [init ++ l] in
    [a ++ init ++ l ++ b] is the one written there when there is none in
    [a ++ init]; the split then cuts [a] off. *)
Lemma split_at_first init l a b :
  Str.contains (init ++ String l EmptyString) (a ++ init) = false ->
  Str.split (init ++ String l EmptyString)
            (a ++ (init ++ String l EmptyString) ++ b)
  = a :: Str.split (init ++ String l EmptyString) b.
Proof.
  set (sep := (init ++ String l EmptyString)%string).
  assert (Hsep : exists c sep', sep = String c sep').
  { unfold sep. destruct init; cbn; eauto. }
  assert (Hlen : String.length sep = S (String.length init)).
  { unfold sep. rewrite string_app_length. cbn. lia. }
  induction a as [|c a IH]; intros H.
  - destruct Hsep as (c & sep' & ->). apply split_at_sep.
  - cbn [Str.contains] in H. apply orb_false_iff in H as [Hp Hc].
    specialize (IH Hc). unfold Str.split in *.
    change (String c a ++ sep ++ b)%string with (String c (a ++ sep ++ b)).
    cbn [Str.split_from].
    change (String c (a ++ sep ++ b)) with (String c a ++ sep ++ b)%string.
    assert (Hp' : String.prefix sep (String c a ++ sep ++ b) = false).
    { unfold sep at 2. rewrite string_app_assoc, <- string_app_assoc.
      rewrite prefix_app_left; [exact Hp|].
      rewrite string_app_length, Hlen. cbn. lia. }
    rewrite Hp', IH. reflexivity.
Qed.

(** X5: when the affiliation text of an author that passes the email
    test is ASCII and "email:" occurs once in its lower-cased form, the
    corresponding email becomes the text after it, stripped. *)
Theorem X5_email_after_separator acc author affiliation t a b :
  find_desc_child "AffiliationInfo" "Affiliation" author = Some affiliation ->
  ET.text affiliation = Some t ->
  Str.is_ascii t = true ->
  email_match (Str.lower t) = true ->
  Str.lower t = (a ++ "email:" ++ b)%string ->
  Str.contains "email:" (a ++ "email") = false ->
  Str.contains "email:" b = false ->
  exists acc',
    author_step acc author = Ok acc' /\
    corresponding_email acc' = Str.strip b.
Proof.
  intros Ha Ht _ Hm Hlow Hfirst Hrest.
  rewrite (author_step_affiliated acc _ _ _ Ha Ht). cbv zeta.
  rewrite Hm, Hlow.
  assert (Hs : Str.split "email:" (a ++ "email:" ++ b)
               = a :: Str.split "email:" b)
    by exact (split_at_first "email" ":" a b Hfirst).
  rewrite Hs, (split_without_sep _ _ Hrest). cbn. eauto.
Qed.

(** X6: when the affiliation text is ASCII and "email:" occurs a second
    time in its lower-cased form, the corresponding email is the text
    between the first two occurrences, stripped; what follows the second
    occurrence is dropped. *)
Theorem X6_email_between_separators acc author affiliation t a b rest :
  find_desc_child "AffiliationInfo" "Affiliation" author = Some affiliation ->
  ET.text affiliation = Some t ->
  Str.is_ascii t = true ->
  email_match (Str.lower t) = true ->
  Str.lower t = (a ++ "email:" ++ b ++ "email:" ++ rest)%string ->
  Str.contains "email:" (a ++ "email") = false ->
  Str.contains "email:" (b ++ "email") = false ->
  exists acc',
    author_step acc author = Ok acc' /\
    corresponding_email acc' = Str.strip b.
Proof.
  intros Ha Ht _ Hm Hlow Hfirst Hsecond.
  rewrite (author_step_affiliated acc _ _ _ Ha Ht). cbv zeta.
  rewrite Hm, Hlow.
  assert (Hs1 : Str.split "email:" (a ++ "email:" ++ b ++ "email:" ++ rest)
                = a :: Str.split "email:" (b ++ "email:" ++ rest))
    by exact (split_at_first "email" ":" a _ Hfirst).
  assert (Hs2 : Str.split "email:" (b ++ "email:" ++ rest)
                = b :: Str.split "email:" rest)
    by exact (split_at_first "email" ":" b rest Hsecond).
  rewrite Hs1, Hs2. cbn. eauto.
Qed.

(** ** More on the two requests *)

Lemma raise_for_status_ok r :
  (Response.status_code r < 400 \/ 600 <= Response.status_code r)%Z ->
  raise_for_status r = Ok tt.
Proof.
  intros H. unfold raise_for_status.
  destruct (400 <=? Response.status_code r)%Z eqn:E1; [|reflexivity].
  destruct (Response.status_code r <? 600)%Z eqn:E2; [|reflexivity].
  apply Z.leb_le in E1. apply Z.ltb_lt in E2. lia.
Qed.

Lemma subscript_raises v k e :
  subscript v k = Raise e -> e = KeyError k \/ e = TypeError.
Proof.
  destruct v; cbn; try (intros [= <-]; auto).
  destruct (lookup k fields); [discriminate|]. intros [= <-]. auto.
Qed.

Lemma join_str_list sep ids :
  Py.join sep (str_list ids) = Ok (Str.join sep ids).
Proof.
  unfold Py.join, str_list, Str.join_opt. rewrite map_map. cbn [as_str].
  assert (H : Str.all_str (map (fun x => Some x) ids) = Ok ids).
  { induction ids as [|x ids IH]; cbn; [reflexivity|now rewrite IH]. }
  now rewrite H.
Qed.

Lemma article_loop_completes articles : forall done,
  forallb article_ok articles = true
  <-> exists papers, article_loop articles done = Ok papers.
Proof.
  induction articles as [|a articles IH]; cbn; intros done.
  - split; eauto.
  - rewrite andb_true_iff. split.
    + intros [Ha Hall].
      destruct (proj1 (article_record_completes a) Ha) as [p ->]. cbn.
      now apply IH.
    + intros [papers H].
      destruct (article_record a) as [p|] eqn:E; cbn in H; [|discriminate].
      split.
      * apply article_record_completes. eauto.
      * apply (IH (done ++ [p])). eauto.
Qed.

(** X7: when the search request is answered with a status outside 4xx
    and 5xx and the decoded body holds ["esearchresult"]["idlist"],
    [fetch_paper_ids] returns that value as it is, prints nothing and has
    sent one request, with the query, the cap and the json mode. *)
Theorem X7_search_returns_idlist query max_results r body esearchresult
  idlist w :
  http_get (search_request query max_results) = Ok r ->
  (Response.status_code r < 400 \/ 600 <= Response.status_code r)%Z ->
  response_json r = Ok body ->
  subscript body "esearchresult" = Ok esearchresult ->
  subscript esearchresult "idlist" = Ok idlist ->
  fetch_paper_ids query max_results w
  = (Ok idlist,
     mkWorld (stdout w) (sent w ++ [search_request query max_results])
             (files w)).
Proof.
  intros Hget Hst Hjson He Hi.
  unfold fetch_paper_ids, IO.try_request, IO.bind, requests_get, IO.lift.
  now rewrite Hget, (raise_for_status_ok _ Hst), Hjson, He, Hi.
Qed.

(** X8: when the decoded body of a successful search lacks the key
    "esearchresult", or its value lacks "idlist", or one of the two is
    not a dictionary, [fetch_paper_ids] raises the [KeyError] or
    [TypeError] of the subscript: the handler does not recover it and
    nothing is printed. *)
Theorem X8_malformed_envelope_raises query max_results r body e w :
  http_get (search_request query max_results) = Ok r ->
  (Response.status_code r < 400 \/ 600 <= Response.status_code r)%Z ->
  response_json r = Ok body ->
  (esearchresult <-r subscript body "esearchresult" ;;
   subscript esearchresult "idlist") = Raise e ->
  fetch_paper_ids query max_results w
  = (Raise e,
     mkWorld (stdout w) (sent w ++ [search_request query max_results])
             (files w)) /\
  (e = KeyError "esearchresult" \/ e = KeyError "idlist" \/ e = TypeError).
Proof.
  intros Hget Hst Hjson He.
  assert (Hkind : e = KeyError "esearchresult" \/ e = KeyError "idlist"
                  \/ e = TypeError).
  { destruct (subscript body "esearchresult") as [es|e1] eqn:E1; cbn in He.
    - destruct (subscript_raises _ _ _ He); auto.
    - injection He as <-. destruct (subscript_raises _ _ _ E1); auto. }
  split; [|exact Hkind].
  unfold fetch_paper_ids, IO.try_request, IO.bind, requests_get, IO.lift.
  rewrite Hget, (raise_for_status_ok _ Hst), Hjson.
  destruct (subscript body "esearchresult") as [es|e1]; cbn in He.
  - rewrite He.
    destruct Hkind as [-> | [-> | ->]]; reflexivity.
  - injection He as ->.
    destruct Hkind as [-> | [-> | ->]]; reflexivity.
Qed.

(** X9: when [response.json()] raises on the answer of a successful
    search, [fetch_paper_ids] recovers it to the empty list, with the
    error printed, if the exception is a [RequestException], and raises it
    otherwise. *)
Theorem X9_undecodable_body query max_results r e w :
  http_get (search_request query max_results) = Ok r ->
  (Response.status_code r < 400 \/ 600 <= Response.status_code r)%Z ->
  response_json r = Raise e ->
  fetch_paper_ids query max_results w
  = if is_request_exception e
    then (Ok (JArr []),
          mkWorld (stdout w ++ [("Error fetching paper IDs: " ++ exn_str e)%string])
                  (sent w ++ [search_request query max_results]) (files w))
    else (Raise e,
          mkWorld (stdout w) (sent w ++ [search_request query max_results])
                  (files w)).
Proof.
  intros Hget Hst Hjson.
  unfold fetch_paper_ids, IO.try_request, IO.bind, requests_get, IO.lift.
  rewrite Hget, (raise_for_status_ok _ Hst), Hjson.
  destruct (is_request_exception e); reflexivity.
Qed.

(** X10: for a non-empty list of identifiers [fetch_paper_details] sends
    exactly one request, whatever its outcome: the fetch request whose
    [id] parameter is the identifiers joined by commas, in xml mode. *)
Theorem X10_one_batched_request ids w :
  ids <> [] ->
  sent (snd (fetch_paper_details (str_list ids) w))
  = sent w ++ [fetch_request (Str.join "," ids)].
Proof.
  intros Hne.
  unfold fetch_paper_details.
  assert (Ht : truthy (str_list ids) = true) by (now destruct ids).
  rewrite Ht. cbn [negb].
  unfold IO.try_request, fetch_document.
  unfold IO.bind at 1 2, IO.lift at 1. rewrite join_str_list.
  unfold IO.bind, requests_get, IO.lift, IO.print, IO.ret.
  destruct (http_get _) as [r|e].
  - destruct (raise_for_status r) as [[]|e].
    + destruct (fromstring _) as [root|e].
      * destruct (extract_papers root) as [ps|e]; [reflexivity|].
        destruct (is_request_exception e); reflexivity.
      * destruct (is_request_exception e); reflexivity.
    + destruct (is_request_exception e); reflexivity.
  - destruct (is_request_exception e); reflexivity.
Qed.

(** X11: when the answer of the fetch request cannot be parsed, the
    exception of the parser, which is not a [RequestException], is raised
    by [fetch_paper_details]; nothing is printed. *)
Theorem X11_parse_error_raises paper_ids ids r e w :
  truthy paper_ids = true ->
  Py.join "," paper_ids = Ok ids ->
  http_get (fetch_request ids) = Ok r ->
  (Response.status_code r < 400 \/ 600 <= Response.status_code r)%Z ->
  fromstring (Response.text r) = Raise e ->
  is_request_exception e = false ->
  fetch_paper_details paper_ids w
  = (Raise e, mkWorld (stdout w) (sent w ++ [fetch_request ids]) (files w)).
Proof.
  intros Ht Hj Hget Hst Hparse He.
  unfold fetch_paper_details. rewrite Ht. cbn [negb].
  unfold IO.try_request, fetch_document, IO.bind, requests_get, IO.lift.
  now rewrite Hj, Hget, (raise_for_status_ok _ Hst), Hparse, He.
Qed.

(** X12: once the document is fetched and parsed, [fetch_paper_details]
    returns a list exactly when every [PubmedArticle] of the document
    yields a record; the list then has one record for each article. *)
Theorem X12_details_return_iff paper_ids w root w' :
  truthy paper_ids = true ->
  fetch_document paper_ids w = (Ok root, w') ->
  forallb article_ok (findall_desc "PubmedArticle" root) = true
  <-> exists papers,
        fetch_paper_details paper_ids w = (Ok papers, w') /\
        length papers = length (findall_desc "PubmedArticle" root).
Proof.
  intros Ht Hd. rewrite (fetch_paper_details_parsed _ _ _ _ Ht Hd).
  rewrite (article_loop_completes _ []). fold (extract_papers root).
  split.
  - intros [papers H]. exists papers. rewrite H. split; [reflexivity|].
    symmetry. eapply Forall2_length, extract_papers_inv, H.
  - intros (papers & H & _). exists papers. now injection H.
Qed.

(** ** What the computations leave alone *)

Lemma keeps_files_ret {A} (a : A) : keeps_files (IO.ret a).
Proof. now intros w. Qed.

Lemma keeps_files_lift {A} (r : result A) : keeps_files (IO.lift r).
Proof. now intros w. Qed.

Lemma keeps_files_print line : keeps_files (IO.print line).
Proof. now intros w. Qed.

Lemma keeps_files_get req : keeps_files (requests_get req).
Proof. now intros w. Qed.

Lemma keeps_files_bind {A B} (m : M A) (k : A -> M B) :
  keeps_files m -> (forall a, keeps_files (k a)) -> keeps_files (IO.bind m k).
Proof.
  intros Hm Hk w. unfold IO.bind. specialize (Hm w).
  destruct (m w) as [[a|e] w1]; cbn in *; [|exact Hm].
  now rewrite (Hk a w1).
Qed.

Lemma keeps_files_try {A} (body : M A) handler :
  keeps_files body -> (forall e, keeps_files (handler e)) ->
  keeps_files (IO.try_request body handler).
Proof.
  intros Hm Hk w. unfold IO.try_request. specialize (Hm w).
  destruct (body w) as [[a|e] w1]; cbn in *; [exact Hm|].
  destruct (is_request_exception e); cbn; [|exact Hm].
  now rewrite (Hk e w1).
Qed.

Lemma keeps_files_for_each {A} (l : list A) body :
  (forall x, keeps_files (body x)) -> keeps_files (IO.for_each l body).
Proof.
  intros Hb. induction l as [|x l IH]; cbn.
  - apply keeps_files_ret.
  - apply keeps_files_bind; [apply Hb|intros _; exact IH].
Qed.

Create HintDb frame.

#[local] Hint Resolve keeps_files_ret keeps_files_lift keeps_files_print
  keeps_files_get keeps_files_bind keeps_files_try keeps_files_for_each
  : frame.

Lemma fetch_paper_ids_keeps_files query max_results :
  keeps_files (fetch_paper_ids query max_results).
Proof. unfold fetch_paper_ids. auto 10 with frame. Qed.

Lemma fetch_paper_details_keeps_files paper_ids :
  keeps_files (fetch_paper_details paper_ids).
Proof.
  unfold fetch_paper_details, fetch_document.
  destruct (negb (truthy paper_ids)); auto 10 with frame.
Qed.

Lemma sends_at_most_le {A} n n' (m : M A) :
  n <= n' -> sends_at_most n m -> sends_at_most n' m.
Proof.
  intros Hle Hm w. destruct (Hm w) as (reqs & H & Hlen).
  exists reqs. split; [exact H|lia].
Qed.

Lemma sends_nothing {A} (m : M A) :
  (forall w, sent (snd (m w)) = sent w) -> sends_at_most 0 m.
Proof. intros H w. exists []. now rewrite app_nil_r, H. Qed.

Lemma sends_at_most_get req : sends_at_most 1 (requests_get req).
Proof. intros w. exists [req]. auto. Qed.

Lemma sends_at_most_bind {A B} n n' (m : M A) (k : A -> M B) :
  sends_at_most n m -> (forall a, sends_at_most n' (k a)) ->
  sends_at_most (n + n') (IO.bind m k).
Proof.
  intros Hm Hk w. unfold IO.bind. destruct (Hm w) as (reqs & H & Hlen).
  destruct (m w) as [[a|e] w1]; cbn in *.
  - destruct (Hk a w1) as (reqs' & H' & Hlen').
    exists (reqs ++ reqs'). rewrite H', H, app_assoc, length_app.
    split; [reflexivity|lia].
  - exists reqs. split; [exact H|lia].
Qed.

Lemma sends_at_most_try {A} n (body : M A) handler :
  sends_at_most n body -> (forall e, sends_at_most 0 (handler e)) ->
  sends_at_most n (IO.try_request body handler).
Proof.
  intros Hm Hk w. unfold IO.try_request. destruct (Hm w) as (reqs & H & Hlen).
  destruct (body w) as [[a|e] w1]; cbn in *; [now exists reqs|].
  destruct (is_request_exception e); cbn; [|now exists reqs].
  destruct (Hk e w1) as (reqs' & H' & Hlen').
  exists (reqs ++ reqs'). rewrite H', H, app_assoc, length_app.
  split; [reflexivity|lia].
Qed.

Lemma fetch_paper_details_sends paper_ids :
  sends_at_most 1 (fetch_paper_details paper_ids).
Proof.
  unfold fetch_paper_details, fetch_document.
  destruct (negb (truthy paper_ids)).
  - apply sends_at_most_le with (n := 0); [lia|]. now apply sends_nothing.
  - apply sends_at_most_try.
    + apply (sends_at_most_bind 1 0); [|intros; now apply sends_nothing].
      apply (sends_at_most_bind 0 1); [now apply sends_nothing|]. intros ids.
      apply (sends_at_most_bind 1 0); [apply sends_at_most_get|]. intros r.
      apply (sends_at_most_bind 0 0); intros; now apply sends_nothing.
    + intros e. now apply sends_nothing.
Qed.

Lemma save_to_csv_sent papers filename w :
  sent (snd (save_to_csv papers filename w)) = sent w.
Proof.
  destruct papers; [reflexivity|].
  unfold save_to_csv, IO.bind, IO.write_file, IO.print.
  now destruct (writable filename).
Qed.

Lemma display_run papers : forall w,
  IO.for_each papers (fun paper => IO.print (repr_paper paper)) w
  = (Ok tt, mkWorld (stdout w ++ map repr_paper papers) (sent w) (files w)).
Proof.
  induction papers as [|p papers IH]; intros w; cbn.
  - rewrite app_nil_r. now destruct w.
  - unfold IO.bind, IO.print at 1. rewrite IH. cbn. now rewrite <- app_assoc.
Qed.

(** The command after its echoes: the two stages, then the sink. *)
Lemma get_papers_list_run query file debug w :
  get_papers_list query file debug w
  = (papers <- fetch_papers query ;;
     match file with
     | Some (String c f) => save_to_csv papers (String c f)
     | _ => IO.for_each papers (fun paper => IO.print (repr_paper paper))
     end)
      (mkWorld (stdout w ++ prelude_lines query file debug) (sent w) (files w)).
Proof.
  unfold get_papers_list, prelude_lines.
  set (rest := IO.bind (fetch_papers query) _).
  destruct debug; unfold IO.bind, IO.print, IO.ret; cbn [stdout sent files];
    now rewrite <- ?app_assoc.
Qed.

Lemma search_failure_run query max_results e w :
  request_fails (search_request query max_results) e ->
  fetch_paper_ids query max_results w
  = (Ok (JArr []),
     mkWorld (stdout w ++ [("Error fetching paper IDs: " ++ exn_str e)%string])
             (sent w ++ [search_request query max_results]) (files w)).
Proof.
  intros Hf. unfold fetch_paper_ids, IO.try_request.
  rewrite (failing_request _ _ _ w Hf).
  now rewrite (request_fails_is_request _ _ Hf).
Qed.

Lemma fetch_papers_keeps_files query : keeps_files (fetch_papers query).
Proof.
  unfold fetch_papers. apply keeps_files_bind.
  - apply fetch_paper_ids_keeps_files.
  - apply fetch_paper_details_keeps_files.
Qed.

(** ** The command *)

(** X13: without a destination ([file] is [None] or the empty string)
    the command leaves the files as they are, whatever the network
    answers. *)
Theorem X13_no_destination_no_file query file debug w :
  has_destination file = false ->
  files (snd (get_papers_list query file debug w)) = files w.
Proof.
  intros Hno. rewrite get_papers_list_run.
  set (w1 := mkWorld _ _ _).
  change (files w) with (files w1). generalize w1. clear w1.
  change (keeps_files
            (papers <- fetch_papers query ;;
             match file with
             | Some (String c f) => save_to_csv papers (String c f)
             | _ => IO.for_each papers
                      (fun paper => IO.print (repr_paper paper))
             end)).
  apply keeps_files_bind; [apply fetch_papers_keeps_files|]. intros papers.
  destruct file as [[|c f]|]; [|discriminate|];
    apply keeps_files_for_each; intros; apply keeps_files_print.
Qed.

(** X14: the command sends the search request for its query with the
    cap 10 first, and after it at most one more request. *)
Theorem X14_at_most_two_requests query file debug w :
  exists rest,
    sent (snd (get_papers_list query file debug w))
    = sent w ++ search_request query 10 :: rest /\
    length rest <= 1.
Proof.
  rewrite get_papers_list_run.
  set (w1 := mkWorld _ (sent w) _).
  unfold IO.bind at 1, fetch_papers, IO.bind at 1.
  pose proof (fetch_paper_ids_sent query 10 w1) as Hs.
  destruct (fetch_paper_ids query 10 w1) as [[ids|e] w2]; cbn in Hs.
  - destruct (fetch_paper_details_sends ids w2) as (reqs & Hd & Hlen).
    destruct (fetch_paper_details ids w2) as [[papers|e] w3]; cbn in Hd.
    + exists reqs. split; [|exact Hlen].
      assert (Hsink : forall w', sent (snd (match file with
                 | Some (String c f) => save_to_csv papers (String c f)
                 | _ => IO.for_each papers
                          (fun paper => IO.print (repr_paper paper))
                 end w')) = sent w').
      { intros w'. destruct file as [[|c f]|];
          [now rewrite display_run | apply save_to_csv_sent
           | now rewrite display_run]. }
      rewrite Hsink, Hd, Hs. cbn. now rewrite <- app_assoc.
    + exists reqs. split; [|exact Hlen].
      cbn. rewrite Hd, Hs. cbn. now rewrite <- app_assoc.
  - exists []. split; [|cbn; lia]. cbn. exact Hs.
Qed.

(** X15: when the search request fails, the command still ends normally:
    it has printed its echoes, the error of the search and the notice of
    the detail stage, and with a destination the notice of the sink; it
    has sent the search request only and written no file. *)
Theorem X15_search_failure_ends_normally query file debug e w :
  request_fails (search_request query 10) e ->
  get_papers_list query file debug w
  = (Ok tt,
     mkWorld (stdout w ++ prelude_lines query file debug
                ++ [("Error fetching paper IDs: " ++ exn_str e)%string;
                    "No paper IDs provided."]
                ++ (if has_destination file
                    then ["No papers to save."] else []))
             (sent w ++ [search_request query 10]) (files w)).
Proof.
  intros Hf. rewrite get_papers_list_run.
  unfold IO.bind at 1, fetch_papers, IO.bind at 1.
  rewrite (search_failure_run _ _ _ _ Hf).
  rewrite fetch_paper_details_falsy by reflexivity.
  destruct file as [[|c f]|];
    unfold has_destination, save_to_csv, IO.for_each, IO.ret, IO.print;
    cbn [stdout sent files]; rewrite <- ?app_assoc; cbn [app];
    rewrite ?app_nil_r; reflexivity.
Qed.

(** X16: without a destination the command prints the records that the
    two stages return, one line for each, in their order, after all that
    the stages printed, and ends normally. *)
Theorem X16_records_displayed query file debug w papers w2 :
  has_destination file = false ->
  fetch_papers query
    (mkWorld (stdout w ++ prelude_lines query file debug) (sent w) (files w))
  = (Ok papers, w2) ->
  get_papers_list query file debug w
  = (Ok tt,
     mkWorld (stdout w2 ++ map repr_paper papers) (sent w2) (files w2)).
Proof.
  intros Hno Hrun. rewrite get_papers_list_run.
  unfold IO.bind at 1. rewrite Hrun.
  destruct file as [[|c f]|]; [|discriminate|]; apply display_run.
Qed.

(** X17: when the identifiers cannot be joined, because the value is a
    non-empty list with an item that is not a string or is no sequence
    at all, [fetch_paper_details] raises [TypeError] before any request
    is sent; nothing is printed. *)
Theorem X17_unjoinable_ids_raise paper_ids e w :
  truthy paper_ids = true ->
  Py.join "," paper_ids = Raise e ->
  fetch_paper_details paper_ids w = (Raise e, w) /\ e = TypeError.
Proof.
  intros Ht Hj.
  assert (He : e = TypeError).
  { destruct paper_ids; cbn in Hj; try (now injection Hj); try discriminate.
    unfold Str.join_opt in Hj.
    destruct (Str.all_str (map as_str items)) as [xs|e1] eqn:E; cbn in Hj;
      [discriminate|]. injection Hj as <-.
    clear -E. revert e1 E. generalize (map as_str items).
    induction l as [|[x|] l IH]; cbn; intros e1 E.
    - discriminate.
    - destruct (Str.all_str l); cbn in E; [discriminate|]. now apply IH.
    - now injection E. }
  split; [|exact He]. subst e.
  unfold fetch_paper_details. rewrite Ht. cbn [negb].
  unfold IO.try_request, fetch_document, IO.bind, IO.lift. now rewrite Hj.
Qed.

End Pipeline.

(** ** The claims on sample inputs *)

Lemma C1_author_without_keyword_witness :
  find_desc_child "AffiliationInfo" "Affiliation"
    (author_with "Doe" academic_text)
  = Some (leaf "Affiliation" academic_text) /\
  keyword_match (Str.lower academic_text) = false /\
  email_match (Str.lower academic_text) = false /\
  author_step acc0 (author_with "Doe" academic_text) = Ok acc0.
Proof.
  assert (Ha : find_desc_child "AffiliationInfo" "Affiliation"
                 (author_with "Doe" academic_text)
               = Some (leaf "Affiliation" academic_text)) by reflexivity.
  assert (Hk : keyword_match (Str.lower academic_text) = false)
    by (vm_compute; reflexivity).
  assert (He : email_match (Str.lower academic_text) = false)
    by (vm_compute; reflexivity).
  split; [exact Ha|]. split; [exact Hk|]. split; [exact He|].
  exact (proj2 (C1_author_without_keyword acc0 _ _ academic_text
                  Ha eq_refl Hk) He).
Defined.

(** C1, as stated, fails: the affiliation of this author contains no
    keyword, in either case, and yet the step replaces the corresponding
    email. *)
Lemma C1_counterexample :
  find_desc_child "AffiliationInfo" "Affiliation"
    (author_with "Doe" university_text)
  = Some (leaf "Affiliation" university_text) /\
  existsb (fun k => Str.contains k university_text) keywords = false /\
  keyword_match (Str.lower university_text) = false /\
  author_step acc0 (author_with "Doe" university_text)
  = Ok (mkAcc [] [] "jane@x.edu") /\
  corresponding_email (mkAcc [] [] "jane@x.edu") <> corresponding_email acc0.
Proof.
  repeat split; try (vm_compute; reflexivity).
  cbn. discriminate.
Qed.

Lemma C2_default_email_witness :
  fst (fetch_paper_details (fixed_get (Ok ok_response)) fixed_msg
         (fixed_parse (document [bare_article; industry_article]))
         (str_list ["101"; "104"]) world0)
  = Ok [mkPaper (Some "101") (Some "N/A") (Some "N/A") (Some "N/A")
          (Some "N/A") (Some "N/A");
        mkPaper (Some "104") (Some "N/A") (Some "N/A") (Some "Poe")
          (Some (Str.join ", " [biotech_text; "Acme Pharmaceutical Company"]))
          (Some "jane@x.com")] /\
  no_author_sets_email bare_article = true /\
  exists root w',
    fetch_document (fixed_get (Ok ok_response)) fixed_msg
      (fixed_parse (document [bare_article; industry_article]))
      (str_list ["101"; "104"]) world0 = (Ok root, w') /\
    Forall2 (fun article p =>
               article_record article = Ok p /\
               (no_author_sets_email article = true ->
                Corresponding_Author_Email p = Some "N/A"))
            (findall_desc "PubmedArticle" root)
            [mkPaper (Some "101") (Some "N/A") (Some "N/A") (Some "N/A")
               (Some "N/A") (Some "N/A");
             mkPaper (Some "104") (Some "N/A") (Some "N/A") (Some "Poe")
               (Some (Str.join ", "
                        [biotech_text; "Acme Pharmaceutical Company"]))
               (Some "jane@x.com")].
Proof.
  assert (H : fst (fetch_paper_details (fixed_get (Ok ok_response)) fixed_msg
                     (fixed_parse (document [bare_article; industry_article]))
                     (str_list ["101"; "104"]) world0)
              = Ok [mkPaper (Some "101") (Some "N/A") (Some "N/A")
                      (Some "N/A") (Some "N/A") (Some "N/A");
                    mkPaper (Some "104") (Some "N/A") (Some "N/A")
                      (Some "Poe")
                      (Some (Str.join ", "
                               [biotech_text; "Acme Pharmaceutical Company"]))
                      (Some "jane@x.com")])
    by (vm_compute; reflexivity).
  split; [exact H|]. split; [reflexivity|].
  destruct (C2_default_email _ _ _ _ _ _ H) as [Hnil | Hex];
    [discriminate Hnil | exact Hex].
Defined.

(** C2, as stated, fails: this article has no author at all, and the
    email of its record is "N/A", not "not available". *)
Lemma C2_counterexample :
  exists p,
    fst (fetch_paper_details (fixed_get (Ok ok_response)) fixed_msg
           (fixed_parse (document [bare_article])) (str_list ["101"]) world0)
    = Ok [p] /\
    no_author_sets_email bare_article = true /\
    Corresponding_Author_Email p = Some "N/A" /\
    Corresponding_Author_Email p <> Some "not available".
Proof.
  eexists. split; [vm_compute; reflexivity|].
  split; [reflexivity|]. split; [reflexivity|]. cbn. discriminate.
Qed.

Lemma C3_request_failure_recovered_witness :
  request_fails (fixed_get (Ok not_found)) fixed_msg
    (search_request "aspirin" 10) (RequestException "HTTP error") /\
  fetch_paper_ids (fixed_get (Ok not_found)) fixed_msg
    (fun _ => Ok empty_envelope) "aspirin" 10 world0
  = (Ok (JArr []),
     mkWorld ["Error fetching paper IDs: HTTP error"]
             [search_request "aspirin" 10] []) /\
  request_fails (fixed_get (Raise refused)) fixed_msg
    (fetch_request "7,8") refused /\
  fetch_paper_details (fixed_get (Raise refused)) fixed_msg
    (fixed_parse (document [])) (str_list ["7"; "8"]) world0
  = (Ok [],
     mkWorld ["Error fetching paper details: Connection refused"]
             [fetch_request "7,8"] []).
Proof.
  assert (H1 : request_fails (fixed_get (Ok not_found)) fixed_msg
                 (search_request "aspirin" 10) (RequestException "HTTP error")).
  { apply (status_failure (fixed_get (Ok not_found)) fixed_msg _ not_found);
      [reflexivity | cbn; lia]. }
  assert (H2 : request_fails (fixed_get (Raise refused)) fixed_msg
                 (fetch_request "7,8") refused).
  { apply network_failure; reflexivity. }
  split; [exact H1|]. split.
  - exact (proj1 (C3_request_failure_recovered (fixed_get (Ok not_found))
                    fixed_msg (fun _ => Ok empty_envelope)
                    (fixed_parse (document [])))
             "aspirin" 10%Z _ world0 H1).
  - split; [exact H2|].
    exact (proj2 (C3_request_failure_recovered (fixed_get (Raise refused))
                    fixed_msg (fun _ => Ok empty_envelope)
                    (fixed_parse (document [])))
             (str_list ["7"; "8"]) "7,8" _ world0 eq_refl eq_refl H2).
Defined.

Lemma C4_missing_pmid_raises_witness :
  fetch_document (fixed_get (Ok ok_response)) fixed_msg
    (fixed_parse (document [bare_article; anonymous_article]))
    (str_list ["101"; "105"]) world0
  = (Ok (document [bare_article; anonymous_article]),
     mkWorld [] [fetch_request "101,105"] []) /\
  In anonymous_article
     (findall_desc "PubmedArticle"
        (document [bare_article; anonymous_article])) /\
  find_desc "PMID" anonymous_article = None /\
  exists e,
    fetch_paper_details (fixed_get (Ok ok_response)) fixed_msg
      (fixed_parse (document [bare_article; anonymous_article]))
      (str_list ["101"; "105"]) world0
    = (Raise e, mkWorld [] [fetch_request "101,105"] []) /\
    is_request_exception e = false.
Proof.
  assert (Hd : fetch_document (fixed_get (Ok ok_response)) fixed_msg
                 (fixed_parse (document [bare_article; anonymous_article]))
                 (str_list ["101"; "105"]) world0
               = (Ok (document [bare_article; anonymous_article]),
                  mkWorld [] [fetch_request "101,105"] []))
    by (vm_compute; reflexivity).
  assert (Hin : In anonymous_article
                  (findall_desc "PubmedArticle"
                     (document [bare_article; anonymous_article])))
    by (vm_compute; auto).
  split; [exact Hd|]. split; [exact Hin|]. split; [reflexivity|].
  exact (C4_missing_pmid_raises (fixed_get (Ok ok_response)) fixed_msg
           (fixed_parse (document [bare_article; anonymous_article]))
           (str_list ["101"; "105"]) world0 _ _ anonymous_article
           eq_refl Hd Hin eq_refl).
Defined.

Lemma C5_zero_identifiers_witness :
  fetch_paper_ids (fixed_get (Ok ok_response)) fixed_msg
    (fun _ => Ok empty_envelope) "zzzz" 10 world0
  = (Ok (JArr []), mkWorld [] [search_request "zzzz" 10] []) /\
  fetch_papers (fixed_get (Ok ok_response)) fixed_msg
    (fun _ => Ok empty_envelope) (fixed_parse (document [bare_article]))
    "zzzz" world0
  = (Ok [], mkWorld ["No paper IDs provided."]
                    [search_request "zzzz" 10] []).
Proof.
  assert (H : fetch_paper_ids (fixed_get (Ok ok_response)) fixed_msg
                (fun _ => Ok empty_envelope) "zzzz" 10 world0
              = (Ok (JArr []), mkWorld [] [search_request "zzzz" 10] []))
    by (vm_compute; reflexivity).
  split; [exact H|].
  exact (proj1 (proj2 (C5_zero_identifiers _ _ _
                         (fixed_parse (document [bare_article])) _ _ _ H))).
Defined.

Lemma C6_biotech_author_witness :
  find_desc_child "AffiliationInfo" "Affiliation"
    (author_with "Poe" biotech_text)
  = Some (leaf "Affiliation" biotech_text) /\
  find_child "LastName" (author_with "Poe" biotech_text)
  = Some (leaf "LastName" "Poe") /\
  author_step acc0 (author_with "Poe" biotech_text)
  = Ok (mkAcc [Some "Poe"] [biotech_text] "jane@x.com").
Proof.
  split; [reflexivity|]. split; [reflexivity|].
  exact (C6_biotech_author acc0 (author_with "Poe" biotech_text)
           (leaf "Affiliation" biotech_text) (leaf "LastName" "Poe")
           eq_refl eq_refl eq_refl).
Defined.

Lemma C7_missing_title_witness :
  fst (fetch_paper_details (fixed_get (Ok ok_response)) fixed_msg
         (fixed_parse (document [bare_article; university_article]))
         (str_list ["101"; "102"]) world0)
  = Ok [mkPaper (Some "101") (Some "N/A") (Some "N/A") (Some "N/A")
          (Some "N/A") (Some "N/A");
        mkPaper (Some "102") (Some "On tides") (Some "N/A") (Some "N/A")
          (Some "N/A") (Some "jane@x.edu")] /\
  find_desc "ArticleTitle" bare_article = None /\
  exists root w',
    fetch_document (fixed_get (Ok ok_response)) fixed_msg
      (fixed_parse (document [bare_article; university_article]))
      (str_list ["101"; "102"]) world0 = (Ok root, w') /\
    Forall2 (fun article p =>
               article_record article = Ok p /\
               (find_desc "ArticleTitle" article = None ->
                Title p = Some "N/A"))
            (findall_desc "PubmedArticle" root)
            [mkPaper (Some "101") (Some "N/A") (Some "N/A") (Some "N/A")
               (Some "N/A") (Some "N/A");
             mkPaper (Some "102") (Some "On tides") (Some "N/A") (Some "N/A")
               (Some "N/A") (Some "jane@x.edu")].
Proof.
  assert (H : fst (fetch_paper_details (fixed_get (Ok ok_response)) fixed_msg
                     (fixed_parse (document [bare_article; university_article]))
                     (str_list ["101"; "102"]) world0)
              = Ok [mkPaper (Some "101") (Some "N/A") (Some "N/A")
                      (Some "N/A") (Some "N/A") (Some "N/A");
                    mkPaper (Some "102") (Some "On tides") (Some "N/A")
                      (Some "N/A") (Some "N/A") (Some "jane@x.edu")])
    by (vm_compute; reflexivity).
  split; [exact H|]. split; [reflexivity|].
  destruct (C7_missing_title _ _ _ _ _ _ H) as [Hnil | Hex];
    [discriminate Hnil | exact Hex].
Defined.

Lemma C8_sink_witness :
  only_in_tmp "/tmp/out.csv" = true /\
  save_to_csv quote_minimal LF only_in_tmp
    [untitled_record; industry_record] "/tmp/out.csv" world0
  = (Ok tt,
     mkWorld ["Results saved to /tmp/out.csv"] []
       [("/tmp/out.csv",
         ("PubmedID,Title,Publication Date,Non-academic Author(s),"
          ++ "Company Affiliation(s),Corresponding Author Email" ++ LF
          ++ "105,,2021,N/A,N/A,N/A" ++ LF
          ++ "104,N/A,N/A,Poe,"
          ++ String dquote "Biotech Corp, Acme Pharmaceutical Company"
          ++ String dquote ",jane@x.com" ++ LF)%string)]) /\
  save_to_csv quote_minimal LF only_in_tmp [] "/tmp/out.csv" world0
  = (Ok tt, mkWorld ["No papers to save."] [] []).
Proof.
  split; [reflexivity|]. split.
  - rewrite (proj1 (proj2 (C8_sink quote_minimal LF only_in_tmp
                             "/tmp/out.csv" world0))
               untitled_record [industry_record] eq_refl).
    vm_compute. reflexivity.
  - exact (proj1 (C8_sink quote_minimal LF only_in_tmp
                    "/tmp/out.csv" world0)).
Defined.

(** C8, as stated, fails: with two records and a destination in a
    directory that cannot be written, the write raises and there is no
    file, hence no header row and no row of a record. *)
Lemma C8_counterexample :
  only_in_tmp "/no_such_dir/out.csv" = false /\
  save_to_csv quote_minimal LF only_in_tmp
    [untitled_record; industry_record] "/no_such_dir/out.csv" world0
  = (Raise (OtherError "OSError"), world0) /\
  files world0 = [].
Proof. repeat split. Qed.

(** C9: the affiliation "Corresponding author, e-mail withheld,
    University Email Office" contains, once in lower case, "corresponding"
    and "email" but not "email:"; for an author with it the step raises
    [IndexError] at the index 1 of the split, and [fetch_paper_details]
    raises it to its caller instead of returning a list. *)
Theorem C9_split_index_error :
  exists author affiliation t,
    find_desc_child "AffiliationInfo" "Affiliation" author
    = Some affiliation /\
    ET.text affiliation = Some t /\
    t = "Corresponding author, e-mail withheld, University Email Office" /\
    Str.contains "corresponding" (Str.lower t) = true /\
    Str.contains "email" (Str.lower t) = true /\
    Str.contains "email:" (Str.lower t) = false /\
    Str.split "email:" (Str.lower t) = [Str.lower t] /\
    (forall acc, author_step acc author = Raise IndexError) /\
    fetch_paper_details (fixed_get (Ok ok_response)) fixed_msg
      (fixed_parse
         (document [bare_article; article_with [leaf "PMID" "103"] [author]]))
      (str_list ["101"; "103"]) world0
    = (Raise IndexError, mkWorld [] [fetch_request "101,103"] []) /\
    is_request_exception IndexError = false.
Proof.
  exists (author_with "Roe" withheld_text),
         (leaf "Affiliation" withheld_text), withheld_text.
  assert (Hc : Str.contains "email:" (Str.lower withheld_text) = false)
    by (vm_compute; reflexivity).
  split; [reflexivity|]. split; [reflexivity|]. split; [reflexivity|].
  split; [vm_compute; reflexivity|]. split; [vm_compute; reflexivity|].
  split; [exact Hc|]. split; [exact (split_without_sep _ _ Hc)|].
  split.
  - intros acc.
    apply (author_step_split_fails acc _ (leaf "Affiliation" withheld_text)
             withheld_text);
      [reflexivity | reflexivity | vm_compute; reflexivity | exact Hc].
  - split; [vm_compute; reflexivity | reflexivity].
Qed.

Lemma C10_affiliations_cover_authors_witness :
  author_loop (findall_desc "Author" industry_article)
  = Ok (mkAcc [Some "Poe"]
              [biotech_text; "Acme Pharmaceutical Company"] "jane@x.com") /\
  1 <= 2.
Proof.
  assert (H : author_loop (findall_desc "Author" industry_article)
              = Ok (mkAcc [Some "Poe"]
                      [biotech_text; "Acme Pharmaceutical Company"]
                      "jane@x.com"))
    by (vm_compute; reflexivity).
  split; [exact H|].
  exact (C10_affiliations_cover_authors _ _ H).
Defined.

(** ** The further properties on sample inputs *)

Lemma X2_author_loop_collects_witness :
  author_loop (findall_desc "Author" industry_article)
  = Ok (mkAcc [Some "Poe"]
              [biotech_text; "Acme Pharmaceutical Company"] "jane@x.com") /\
  [biotech_text; "Acme Pharmaceutical Company"]
  = flat_map company_of (findall_desc "Author" industry_article) /\
  [Some "Poe"] = flat_map name_of (findall_desc "Author" industry_article).
Proof.
  assert (H : author_loop (findall_desc "Author" industry_article)
              = Ok (mkAcc [Some "Poe"]
                      [biotech_text; "Acme Pharmaceutical Company"]
                      "jane@x.com"))
    by (vm_compute; reflexivity).
  split; [exact H|].
  exact (X2_author_loop_collects _ _ H).
Defined.

Lemma X3_last_email_wins_witness :
  author_loop ([author_with "Doe" university_text]
                 ++ author_with "Poe" biotech_text
                 :: [author_with "Lee" academic_text])
  = Ok (mkAcc [Some "Poe"] [biotech_text] "jane@x.com") /\
  Str.is_ascii biotech_text = true /\
  email_match (Str.lower biotech_text) = true /\
  exists piece,
    getitem (Str.split "email:" (Str.lower biotech_text)) 1 = Ok piece /\
    "jane@x.com" = Str.strip piece.
Proof.
  assert (H : author_loop ([author_with "Doe" university_text]
                             ++ author_with "Poe" biotech_text
                             :: [author_with "Lee" academic_text])
              = Ok (mkAcc [Some "Poe"] [biotech_text] "jane@x.com"))
    by (vm_compute; reflexivity).
  assert (Hm : email_match (Str.lower biotech_text) = true)
    by (vm_compute; reflexivity).
  split; [exact H|]. split; [reflexivity|]. split; [exact Hm|].
  exact (X3_last_email_wins [author_with "Doe" university_text]
           (author_with "Poe" biotech_text)
           [author_with "Lee" academic_text]
           (leaf "Affiliation" biotech_text) biotech_text _
           H eq_refl eq_refl eq_refl Hm eq_refl).
Defined.

Lemma X4_email_normal_form_witness :
  article_record university_article
  = Ok (mkPaper (Some "102") (Some "On tides") (Some "N/A") (Some "N/A")
          (Some "N/A") (Some "jane@x.edu")) /\
  no_author_sets_email university_article = false /\
  forallb email_text_ascii (findall_desc "Author" university_article)
  = true /\
  exists email,
    Some "jane@x.edu" = Some email /\
    Str.is_ascii email = true /\
    Str.lower email = email /\ Str.strip email = email.
Proof.
  assert (H : article_record university_article
              = Ok (mkPaper (Some "102") (Some "On tides") (Some "N/A")
                      (Some "N/A") (Some "N/A") (Some "jane@x.edu")))
    by (vm_compute; reflexivity).
  assert (Hs : no_author_sets_email university_article = false)
    by (vm_compute; reflexivity).
  assert (Ha : forallb email_text_ascii
                 (findall_desc "Author" university_article) = true)
    by (vm_compute; reflexivity).
  split; [exact H|]. split; [exact Hs|]. split; [exact Ha|].
  exact (X4_email_normal_form _ _ H Hs Ha).
Defined.

Lemma X5_email_after_separator_witness :
  Str.lower shouting_text
  = ("corresponding author, " ++ "email:" ++ "   jane.doe@uni.edu  ")%string /\
  Str.is_ascii shouting_text = true /\
  Str.contains "email:" ("corresponding author, " ++ "email") = false /\
  Str.contains "email:" "   jane.doe@uni.edu  " = false /\
  Str.strip "   jane.doe@uni.edu  " = "jane.doe@uni.edu" /\
  exists acc',
    author_step acc0 (author_with "Kim" shouting_text) = Ok acc' /\
    corresponding_email acc' = Str.strip "   jane.doe@uni.edu  ".
Proof.
  assert (Hl : Str.lower shouting_text
               = ("corresponding author, " ++ "email:"
                    ++ "   jane.doe@uni.edu  ")%string)
    by (vm_compute; reflexivity).
  assert (H1 : Str.contains "email:" ("corresponding author, " ++ "email")
               = false) by (vm_compute; reflexivity).
  assert (H2 : Str.contains "email:" "   jane.doe@uni.edu  " = false)
    by (vm_compute; reflexivity).
  assert (Hm : email_match (Str.lower shouting_text) = true)
    by (vm_compute; reflexivity).
  split; [exact Hl|]. split; [reflexivity|]. split; [exact H1|].
  split; [exact H2|]. split; [vm_compute; reflexivity|].
  exact (X5_email_after_separator acc0 (author_with "Kim" shouting_text)
           (leaf "Affiliation" shouting_text) shouting_text _ _
           eq_refl eq_refl eq_refl Hm Hl H1 H2).
Defined.

Lemma X6_email_between_separators_witness :
  Str.lower two_emails_text
  = ("acme biotech. corresponding author. " ++ "email:" ++ " a@acme.com "
       ++ "email:" ++ " b@acme.com")%string /\
  Str.is_ascii two_emails_text = true /\
  Str.strip " a@acme.com " = "a@acme.com" /\
  exists acc',
    author_step acc0 (author_with "Ng" two_emails_text) = Ok acc' /\
    corresponding_email acc' = Str.strip " a@acme.com ".
Proof.
  assert (Hl : Str.lower two_emails_text
               = ("acme biotech. corresponding author. " ++ "email:"
                    ++ " a@acme.com " ++ "email:" ++ " b@acme.com")%string)
    by (vm_compute; reflexivity).
  assert (H1 : Str.contains "email:"
                 ("acme biotech. corresponding author. " ++ "email") = false)
    by (vm_compute; reflexivity).
  assert (H2 : Str.contains "email:" (" a@acme.com " ++ "email") = false)
    by (vm_compute; reflexivity).
  assert (Hm : email_match (Str.lower two_emails_text) = true)
    by (vm_compute; reflexivity).
  split; [exact Hl|]. split; [reflexivity|].
  split; [vm_compute; reflexivity|].
  exact (X6_email_between_separators acc0 (author_with "Ng" two_emails_text)
           (leaf "Affiliation" two_emails_text) two_emails_text _ _ _
           eq_refl eq_refl eq_refl Hm Hl H1 H2).
Defined.

Lemma X7_search_returns_idlist_witness :
  fetch_paper_ids (fixed_get (Ok ok_response)) fixed_msg
    (fun _ => Ok two_ids_envelope) "aspirin" 10 world0
  = (Ok (JArr [JStr "101"; JStr "104"]),
     mkWorld [] [search_request "aspirin" 10] []).
Proof.
  exact (X7_search_returns_idlist (fixed_get (Ok ok_response)) fixed_msg
           (fun _ => Ok two_ids_envelope) "aspirin" 10%Z ok_response
           two_ids_envelope
           (JObj [("count", JStr "2");
                  ("idlist", JArr [JStr "101"; JStr "104"])])
           (JArr [JStr "101"; JStr "104"]) world0
           eq_refl (or_introl eq_refl) eq_refl eq_refl eq_refl).
Defined.

Lemma X8_malformed_envelope_raises_witness :
  fetch_paper_ids (fixed_get (Ok ok_response)) fixed_msg
    (fun _ => Ok error_body) "aspirin" 10 world0
  = (Raise (KeyError "esearchresult"),
     mkWorld [] [search_request "aspirin" 10] []).
Proof.
  exact (proj1 (X8_malformed_envelope_raises (fixed_get (Ok ok_response))
                  fixed_msg (fun _ => Ok error_body) "aspirin" 10%Z
                  ok_response error_body (KeyError "esearchresult") world0
                  eq_refl (or_introl eq_refl) eq_refl eq_refl)).
Defined.

Lemma X9_undecodable_body_witness :
  fetch_paper_ids (fixed_get (Ok ok_response)) fixed_msg
    (fun _ => Raise (OtherError "ValueError")) "aspirin" 10 world0
  = (Raise (OtherError "ValueError"),
     mkWorld [] [search_request "aspirin" 10] []) /\
  fetch_paper_ids (fixed_get (Ok ok_response)) fixed_msg
    (fun _ => Raise (RequestException "Expecting value")) "aspirin" 10 world0
  = (Ok (JArr []),
     mkWorld ["Error fetching paper IDs: Expecting value"]
             [search_request "aspirin" 10] []).
Proof.
  split.
  - exact (X9_undecodable_body (fixed_get (Ok ok_response)) fixed_msg
             (fun _ => Raise (OtherError "ValueError")) "aspirin" 10%Z
             ok_response (OtherError "ValueError") world0
             eq_refl (or_introl eq_refl) eq_refl).
  - exact (X9_undecodable_body (fixed_get (Ok ok_response)) fixed_msg
             (fun _ => Raise (RequestException "Expecting value"))
             "aspirin" 10%Z ok_response
             (RequestException "Expecting value") world0
             eq_refl (or_introl eq_refl) eq_refl).
Defined.

Lemma X10_one_batched_request_witness :
  sent (snd (fetch_paper_details (fixed_get (Raise refused)) fixed_msg
               (fixed_parse (document [])) (str_list ["101"; "104"]) world0))
  = [fetch_request "101,104"].
Proof.
  assert (Hne : ["101"; "104"] <> @nil string) by discriminate.
  exact (X10_one_batched_request (fixed_get (Raise refused)) fixed_msg
           (fixed_parse (document [])) ["101"; "104"] world0 Hne).
Defined.

Lemma X11_parse_error_raises_witness :
  fetch_paper_details (fixed_get (Ok ok_response)) fixed_msg
    (fun _ => Raise (OtherError "ParseError")) (str_list ["101"]) world0
  = (Raise (OtherError "ParseError"),
     mkWorld [] [fetch_request "101"] []).
Proof.
  exact (X11_parse_error_raises (fixed_get (Ok ok_response)) fixed_msg
           (fun _ => Raise (OtherError "ParseError")) (str_list ["101"])
           "101" ok_response (OtherError "ParseError") world0
           eq_refl eq_refl eq_refl (or_introl eq_refl) eq_refl eq_refl).
Defined.

Lemma X12_details_return_iff_witness :
  fetch_document (fixed_get (Ok ok_response)) fixed_msg
    (fixed_parse (document [bare_article; industry_article]))
    (str_list ["101"; "104"]) world0
  = (Ok (document [bare_article; industry_article]),
     mkWorld [] [fetch_request "101,104"] []) /\
  forallb article_ok
    (findall_desc "PubmedArticle" (document [bare_article; industry_article]))
  = true /\
  exists papers,
    fetch_paper_details (fixed_get (Ok ok_response)) fixed_msg
      (fixed_parse (document [bare_article; industry_article]))
      (str_list ["101"; "104"]) world0
    = (Ok papers, mkWorld [] [fetch_request "101,104"] []) /\
    length papers
    = length (findall_desc "PubmedArticle"
                (document [bare_article; industry_article])).
Proof.
  assert (Hd : fetch_document (fixed_get (Ok ok_response)) fixed_msg
                 (fixed_parse (document [bare_article; industry_article]))
                 (str_list ["101"; "104"]) world0
               = (Ok (document [bare_article; industry_article]),
                  mkWorld [] [fetch_request "101,104"] []))
    by (vm_compute; reflexivity).
  assert (Hok : forallb article_ok
                  (findall_desc "PubmedArticle"
                     (document [bare_article; industry_article])) = true)
    by (vm_compute; reflexivity).
  split; [exact Hd|]. split; [exact Hok|].
  exact (proj1 (X12_details_return_iff (fixed_get (Ok ok_response)) fixed_msg
                  (fixed_parse (document [bare_article; industry_article]))
                  (str_list ["101"; "104"]) world0 _ _ eq_refl Hd) Hok).
Defined.

Lemma X13_no_destination_no_file_witness :
  files (snd (get_papers_list (fixed_get (Ok ok_response)) fixed_msg
                (fun _ => Ok two_ids_envelope)
                (fixed_parse (document [bare_article; industry_article]))
                (fun x => x) "," (fun _ => true) show_id "aspirin" (Some EmptyString) true
                (mkWorld [] [] [("old.csv", "kept")])))
  = [("old.csv", "kept")].
Proof.
  exact (X13_no_destination_no_file (fixed_get (Ok ok_response)) fixed_msg
           (fun _ => Ok two_ids_envelope)
           (fixed_parse (document [bare_article; industry_article]))
           (fun x => x) "," (fun _ => true) show_id "aspirin" (Some EmptyString) true
           (mkWorld [] [] [("old.csv", "kept")]) eq_refl).
Defined.

Lemma X15_search_failure_ends_normally_witness :
  request_fails (fixed_get (Raise refused)) fixed_msg
    (search_request "aspirin" 10) refused /\
  get_papers_list (fixed_get (Raise refused)) fixed_msg
    (fun _ => Ok two_ids_envelope) (fixed_parse (document [bare_article]))
    (fun x => x) "," (fun _ => true) show_id "aspirin" (Some "out.csv") false world0
  = (Ok tt,
     mkWorld ["Fetching papers for query: aspirin";
              "Error fetching paper IDs: Connection refused";
              "No paper IDs provided."; "No papers to save."]
             [search_request "aspirin" 10] []).
Proof.
  assert (Hf : request_fails (fixed_get (Raise refused)) fixed_msg
                 (search_request "aspirin" 10) refused)
    by (apply network_failure; reflexivity).
  split; [exact Hf|].
  exact (X15_search_failure_ends_normally (fixed_get (Raise refused))
           fixed_msg (fun _ => Ok two_ids_envelope)
           (fixed_parse (document [bare_article])) (fun x => x) "," (fun _ => true) show_id
           "aspirin" (Some "out.csv") false refused world0 Hf).
Defined.

Lemma X16_records_displayed_witness :
  get_papers_list (fixed_get (Ok ok_response)) fixed_msg
    (fun _ => Ok two_ids_envelope)
    (fixed_parse (document [bare_article; industry_article]))
    (fun x => x) "," (fun _ => true) show_id "aspirin" None false world0
  = (Ok tt,
     mkWorld ["Fetching papers for query: aspirin"; "101"; "104"]
             [search_request "aspirin" 10; fetch_request "101,104"] []).
Proof.
  assert (Hrun : fetch_papers (fixed_get (Ok ok_response)) fixed_msg
                   (fun _ => Ok two_ids_envelope)
                   (fixed_parse (document [bare_article; industry_article]))
                   "aspirin"
                   (mkWorld (stdout world0
                               ++ prelude_lines "aspirin" None false)
                            (sent world0) (files world0))
                 = (Ok [mkPaper (Some "101") (Some "N/A") (Some "N/A")
                          (Some "N/A") (Some "N/A") (Some "N/A");
                        mkPaper (Some "104") (Some "N/A") (Some "N/A")
                          (Some "Poe")
                          (Some (Str.join ", "
                                   [biotech_text;
                                    "Acme Pharmaceutical Company"]))
                          (Some "jane@x.com")],
                    mkWorld ["Fetching papers for query: aspirin"]
                            [search_request "aspirin" 10;
                             fetch_request "101,104"] []))
    by (vm_compute; reflexivity).
  exact (X16_records_displayed (fixed_get (Ok ok_response)) fixed_msg
           (fun _ => Ok two_ids_envelope)
           (fixed_parse (document [bare_article; industry_article]))
           (fun x => x) "," (fun _ => true) show_id "aspirin" None false world0 _ _
           eq_refl Hrun).
Defined.

Lemma X17_unjoinable_ids_raise_witness :
  fetch_paper_details (fixed_get (Ok ok_response)) fixed_msg
    (fixed_parse (document [bare_article]))
    (JArr [JStr "101"; JNum (Qmake 104 1)]) world0
  = (Raise TypeError, world0).
Proof.
  exact (proj1 (X17_unjoinable_ids_raise (fixed_get (Ok ok_response))
                  fixed_msg (fixed_parse (document [bare_article]))
                  (JArr [JStr "101"; JNum (Qmake 104 1)]) TypeError world0
                  eq_refl eq_refl)).
Defined.

Lemma X1_article_record_returns_iff_witness :
  article_ok industry_article = true /\
  (exists p, article_record industry_article = Ok p) /\
  article_ok withheld_article = false /\
  article_record withheld_article = Raise IndexError /\
  (IndexError = AttributeError \/ IndexError = IndexError
   \/ IndexError = TypeError).
Proof.
  assert (Hok : article_ok industry_article = true)
    by (vm_compute; reflexivity).
  assert (Hr : article_record withheld_article = Raise IndexError)
    by (vm_compute; reflexivity).
  split; [exact Hok|].
  split; [exact (proj1 (proj1 (X1_article_record_returns_iff
                                 industry_article)) Hok)|].
  split; [vm_compute; reflexivity|]. split; [exact Hr|].
  exact (proj2 (X1_article_record_returns_iff withheld_article) _ Hr).
Defined.
